(** * plot.py: the benchmark plotting script

    The repository is one Python script, plot.py:
<<
     4  df = pd.read_csv('orderbook_benchmark.csv')
     5  fig, axes = plt.subplots(2, 2, figsize=(12, 10))
     8  df.plot.bar(x='Implementation', y='Add Mean', yerr='Add StdDev',
                    capsize=4, ax=axes[0,0], title='Add Orders (μs)')
    10  df.plot.bar(x='Implementation', y='Modify Mean', yerr='Modify StdDev',
                    capsize=4, ax=axes[0,1], title='Modify Orders (μs)')
    12  df.plot.bar(x='Implementation', y='Delete Mean', yerr='Delete StdDev',
                    capsize=4, ax=axes[1,0], title='Delete Orders (μs)')
    14  df.plot.bar(x='Implementation', y='BestPrice Mean', yerr='BestPrice StdDev',
                    capsize=4, ax=axes[1,1], title='Best Price Lookup (ns)')
    16  plt.tight_layout()
    17  plt.savefig('orderbook_benchmark.png')
    18  plt.show()
>>
    The script is embedded statement by statement, [line4] to [line18], as
    a program in a small state-and-exception monad.  The state holds the
    file system, the three Python globals [df], [fig] and [axes], the
    windows on display and a trace of the library calls made.

    The script has no function of its own: what it does is what pandas
    and matplotlib do on its arguments.  Their calls are modelled by what
    they do to a table and to a figure, and by the exceptions they raise.
    A CSV file holds the table of its fields, each field classified as the
    reader of pandas classifies it: an integer, a decimal number, a missing
    value, or other text; the type that pandas infers for a column is
    computed from these.  A binary float is modelled by the rational number
    it denotes, the infinities and [NaN] apart; the script does no
    arithmetic on it.

    Laying out, rasterising and writing a figure are not modelled.  Whether
    they succeed depends on the figure and on the machine (a label that
    cannot be typeset, a directory in the place of the image, a disk that
    is full, no display): this is the environment [Env] of a run, which
    says for each of the last three calls which exception, if any, it
    raises.  Everything that is proved holds in every environment. *)

From Stdlib Require Import QArith.
From stdpp Require Import base option list strings gmap.

Open Scope string_scope.

(** ** Tables *)

(** A numeric value of a column: a finite number, an infinity, or the
    missing value. *)
Inductive number : Type :=
  | Fin (q : Q)
  | Inf (neg : bool)
  | NaN.

(** A field of the table, as the reader classifies it: an integer
    literal; a decimal literal, an infinity or a missing value; or text
    that is none of these. *)
Inductive Cell : Type :=
  | CInt (z : Z)
  | CNum (v : number)
  | CText (s : string).

(** The table a CSV file denotes: the column labels of the header row and
    one record per data line.  A field that a line leaves empty is absent
    from its record and reads as [NaN]. *)
Record CsvTable : Type := {
  header : list string;
  lines : list (gmap string Cell)
}.

(** A pandas DataFrame: the name of the index, the column labels, and the
    rows, each with its index label. *)
Record DataFrame : Type := {
  index_name : option string;
  columns : list string;
  rows : list (Cell * gmap string Cell)
}.

(** A pandas Series: one named column with the index labels of its frame. *)
Record Series : Type := {
  s_name : string;
  s_index : list Cell;
  s_values : list Cell
}.

(** ** Figures *)

(** One bar of a bar chart: its tick label, its height, the half-width of
    its symmetric error bar and the cap size of that error bar. *)
Record Bar : Type := {
  bar_label : Cell;
  bar_height : number;
  bar_yerr : number;
  bar_capsize : Z
}.

(** A panel (a matplotlib Axes): its title, axis label and legend, the
    bars that are complete, with error bar and tick label, and the heights
    of the rectangles that were added to it.  A chart adds its rectangles
    before it draws their error bars, so that a chart that fails may leave
    rectangles without bars. *)
Record Axes : Type := {
  ax_title : string;
  ax_xlabel : string;
  ax_legend : list string;
  ax_bars : list Bar;
  ax_patches : list number
}.

(** A figure: its size in inches, its grid of panels, row by row, and
    whether the tight layout has been applied. *)
Record Figure : Type := {
  figsize : Q * Q;
  grid : list (list Axes);
  tight : bool
}.

(** A reference to a panel of the current figure: row and column. *)
Definition AxRef : Type := (nat * nat)%type.

(** ** The world and the Python process *)

(** A file: a CSV table, an image, a file of no bytes, a file that may not
    be read, or text that is no table. *)
Inductive File : Type :=
  | FCsv (t : CsvTable)
  | FPng (f : Figure)
  | FOther
  | FEmpty
  | FLocked.

Inductive Exn : Type :=
  | FileNotFoundError (path : string)
  | PermissionError
  | IsADirectoryError (path : string)
  | OSError
  | EmptyDataError
  | UnicodeDecodeError
  | ParserError
  | KeyError (key : string)
  | AttributeError
  | TypeError
  | ValueError
  | RuntimeError
  | IndexError
  | NameError (name : string).

(** The library calls the script makes, as they are entered. *)
Inductive Event : Type :=
  | EvReadCsv (path : string)
  | EvSubplots (nrows ncols : nat)
  | EvBar (y : string) (ax : AxRef)
  | EvTightLayout
  | EvSaveFig (path : string)
  | EvShow.

Record State : Type := {
  files : gmap string File;
  df : option DataFrame;
  fig : option Figure;
  axes : option (list (list AxRef));
  display : list Figure;
  trace : list Event
}.

(** What the machine does to the last three calls of the script: the
    exception, if any, that laying out a figure, writing it to a path and
    showing it raise. *)
Record Env : Type := {
  layout_error : Figure -> option Exn;
  save_error : Figure -> string -> option Exn;
  show_error : Figure -> option Exn
}.

(** The machine on which they all succeed. *)
Definition ideal : Env :=
  {| layout_error := fun _ => None;
     save_error := fun _ _ => None;
     show_error := fun _ => None |}.

Definition set_files (fs : gmap string File) (st : State) : State :=
  {| files := fs; df := df st; fig := fig st; axes := axes st;
     display := display st; trace := trace st |}.

Definition set_df (d : DataFrame) (st : State) : State :=
  {| files := files st; df := Some d; fig := fig st; axes := axes st;
     display := display st; trace := trace st |}.

Definition set_fig (f : Figure) (st : State) : State :=
  {| files := files st; df := df st; fig := Some f; axes := axes st;
     display := display st; trace := trace st |}.

Definition set_axes (a : list (list AxRef)) (st : State) : State :=
  {| files := files st; df := df st; fig := fig st; axes := Some a;
     display := display st; trace := trace st |}.

Definition add_display (f : Figure) (st : State) : State :=
  {| files := files st; df := df st; fig := fig st; axes := axes st;
     display := display st ++ [f]; trace := trace st |}.

Definition add_event (e : Event) (st : State) : State :=
  {| files := files st; df := df st; fig := fig st; axes := axes st;
     display := display st; trace := trace st ++ [e] |}.

(** ** The monad of the script *)

Inductive Outcome (A : Type) : Type :=
  | Ok (a : A) (st : State)
  | Raise (e : Exn) (st : State).
Arguments Ok {A} a st.
Arguments Raise {A} e st.

Definition M (A : Type) : Type := State -> Outcome A.

Definition ret {A} (a : A) : M A := fun st => Ok a st.

Definition bind {A B} (m : M A) (k : A -> M B) : M B :=
  fun st =>
    match m st with
    | Ok a st' => k a st'
    | Raise e st' => Raise e st'
    end.

Definition raise {A} (e : Exn) : M A := fun st => Raise e st.

Definition get : M State := fun st => Ok st st.

Definition modify (f : State -> State) : M unit := fun st => Ok tt (f st).

Definition log (e : Event) : M unit := modify (add_event e).

(** A pure computation that may raise. *)
Definition lift {A} (r : Exn + A) : M A :=
  match r with
  | inl e => raise e
  | inr a => ret a
  end.

Declare Scope py_scope.
Delimit Scope py_scope with py.
Notation "x <- m ;; k" := (bind m (fun x => k))
  (at level 100, m at next level, right associativity) : py_scope.

Definition and_then {A B} (r : Exn + A) (k : A -> Exn + B) : Exn + B :=
  match r with
  | inl e => inl e
  | inr a => k a
  end.

Definition state_of {A} (o : Outcome A) : State :=
  match o with
  | Ok _ st => st
  | Raise _ st => st
  end.

(** ** pandas: reading *)

(** The frame of a table, with the default index 0, 1, 2, ... *)
Definition frame_of_table (t : CsvTable) : DataFrame :=
  {| index_name := None;
     columns := header t;
     rows := imap (fun i r => (CInt (Z.of_nat i), r)) (lines t) |}.

(** What the reader makes of a file: the frame of its table; a file of no
    bytes has "no columns to parse", the bytes of an image are no UTF-8
    text, other text cannot be tokenised. *)
Definition parse (f : File) : Exn + DataFrame :=
  match f with
  | FCsv t => inr (frame_of_table t)
  | FPng _ => inl UnicodeDecodeError
  | FOther => inl ParserError
  | FEmpty => inl EmptyDataError
  | FLocked => inl PermissionError
  end.

(** [pd.read_csv(path)] *)
Definition read_csv (path : string) : M DataFrame :=
  (_ <- log (EvReadCsv path) ;;
   st <- get ;;
   match files st !! path with
   | None => raise (FileNotFoundError path)
   | Some f => lift (parse f)
   end)%py.

(** The field of a row under a column label; an absent field is [NaN]. *)
Definition field (c : string) (r : Cell * gmap string Cell) : Cell :=
  default (CNum NaN) (r.2 !! c).

(** [data[c]]: the column labelled [c], or [KeyError]. *)
Definition getitem (d : DataFrame) (c : string) : Exn + Series :=
  if decide (c ∈ columns d)
  then inr {| s_name := c; s_index := fst <$> rows d; s_values := field c <$> rows d |}
  else inl (KeyError c).

(** [data.set_index(x)]: column [x] becomes the index and is no longer a
    column. *)
Definition set_index (d : DataFrame) (x : string) : Exn + DataFrame :=
  and_then (getitem d x) (fun _ =>
  inr {| index_name := Some x;
         columns := filter (fun c => c ≠ x) (columns d);
         rows := (fun r => (field x r, delete x r.2)) <$> rows d |}).

(** ** pandas: the type of a column *)

Definition int64_min : Z := - 2 ^ 63.
Definition int64_max : Z := 2 ^ 63 - 1.
Definition uint64_max : Z := 2 ^ 64 - 1.

(** How an attempt to read the fields of a column at an integer type
    ends: they all fit, one is too large, or one is no integer.  The
    fields are tried in order and the first that fails decides. *)
Inductive Scan : Type :=
  | Fits
  | Overflows
  | NotInteger.

Fixpoint try_int64 (vals : list Cell) : Scan :=
  match vals with
  | [] => Fits
  | CInt z :: rest =>
      if (int64_min <=? z)%Z && (z <=? int64_max)%Z then try_int64 rest else Overflows
  | CNum NaN :: rest => try_int64 rest
  | _ :: _ => NotInteger
  end.

(** The attempt at uint64, made when int64 overflows.  No numeric type
    holds both a value beyond int64 and a negative or a missing one: the
    column is then kept as text, as it is when a value is beyond uint64. *)
Fixpoint try_uint64 (seen_uint seen_sint seen_null : bool) (vals : list Cell) : Scan :=
  match vals with
  | [] => if seen_sint || (seen_uint && seen_null) then Overflows else Fits
  | CInt z :: rest =>
      if (z <? 0)%Z then try_uint64 seen_uint true seen_null rest
      else if (z <=? uint64_max)%Z
           then try_uint64 (seen_uint || (int64_max <? z)%Z) seen_sint seen_null rest
           else Overflows
  | CNum NaN :: rest => try_uint64 seen_uint seen_sint true rest
  | _ :: _ => NotInteger
  end.

(** Every field reads as a float: an integer of any size does. *)
Definition try_float (vals : list Cell) : bool :=
  forallb (fun c => match c with CText _ => false | _ => true end) vals.

(** Whether the reader gives the column a numeric type (int64, uint64 or
    float64) rather than object.  A column of no values has type object. *)
Definition numeric_dtype (vals : list Cell) : bool :=
  match vals with
  | [] => false
  | _ =>
      match try_int64 vals with
      | Fits => true
      | NotInteger => try_float vals
      | Overflows =>
          match try_uint64 false false false vals with
          | Fits => true
          | NotInteger => try_float vals
          | Overflows => false
          end
      end
  end.

Definition cell_value (c : Cell) : option number :=
  match c with
  | CInt z => Some (Fin (inject_Z z))
  | CNum v => Some v
  | CText _ => None
  end.

(** The values of a column of numeric type. *)
Definition column_values (vals : list Cell) : option (list number) :=
  if numeric_dtype vals then mapM cell_value vals else None.

(** ** pandas and matplotlib: the data of a bar chart *)

Definition fillna (v0 v : number) : number :=
  match v with
  | NaN => v0
  | _ => v
  end.

(** The plotting code keeps the numeric columns only and raises
    "no numeric data to plot" when none is left.  A bar plot draws a
    missing value as a bar of height 0. *)
Definition numeric_data (vals : list Cell) : Exn + list number :=
  match column_values vals with
  | Some vs => inr (fillna (Fin 0) <$> vs)
  | None => inl TypeError
  end.

(** The error column is handed to matplotlib as it is.  [Axes.bar]
    converts it to the units of the axis before it adds a rectangle, and
    raises on a column of text, unless its first value is a missing one:
    the column is then passed on unconverted. *)
Definition convert_errors (vals : list Cell) : Exn + option (list number) :=
  match column_values vals with
  | Some es => inr (Some es)
  | None =>
      match vals with
      | CNum NaN :: _ => inr None
      | _ => inl TypeError
      end
  end.

Definition negative (v : number) : bool :=
  match v with
  | Fin q => negb (Qle_bool 0 q)
  | Inf neg => neg
  | NaN => false
  end.

(** [Axes.errorbar], called once the rectangles are added, rejects values
    that are no numbers, and a negative one
    ("'yerr' must not contain negative values"). *)
Definition error_bars (errs : option (list number)) : Exn + list number :=
  match errs with
  | None => inl TypeError
  | Some es => if existsb negative es then inl ValueError else inr es
  end.

Fixpoint make_bars (capsize : Z) (labels : list Cell) (heights errs : list number)
  : list Bar :=
  match labels, heights, errs with
  | l :: labels', h :: heights', e :: errs' =>
      {| bar_label := l; bar_height := h; bar_yerr := e; bar_capsize := capsize |}
      :: make_bars capsize labels' heights' errs'
  | _, _, _ => []
  end.

(** The index label [l] is the text [name]. *)
Definition is_label (name : string) (l : Cell) : bool :=
  match l with
  | CText s => bool_decide (s = name)
  | _ => false
  end.

(** The error column of [df.plot.bar(x=x, y=y, yerr=yerr)].  The lookup
    of [yerr] as a column is tried first and its failure swallowed; the
    name is then looked up in the selected series, by index label: a
    [KeyError] unless a row carries the name as its label, and then the
    value found is no column ([AttributeError]). *)
Definition error_column (data : DataFrame) (ys : Series) (yerr : string)
  : Exn + Series :=
  match getitem data yerr with
  | inr es => inr es
  | inl e => if existsb (is_label yerr) (s_index ys) then inl AttributeError else inl e
  end.

(** What a chart has in hand when it starts to draw: the tick labels, the
    heights, and the error values, [None] when they were passed on
    unconverted. *)
Record PlotData : Type := {
  pd_labels : list Cell;
  pd_heights : list number;
  pd_errors : option (list number)
}.

(** [df.plot.bar(x=x, y=y, yerr=yerr)] up to its first rectangle: [x] is
    made the index, [y] is selected, the error column is found, and the
    data are checked, the heights before the errors. *)
Definition plot_data (d : DataFrame) (x y yerr : string) : Exn + PlotData :=
  and_then (set_index d x) (fun data =>
  and_then (getitem data y) (fun ys =>
  and_then (error_column data ys yerr) (fun es =>
  and_then (numeric_data (s_values ys)) (fun heights =>
  and_then (convert_errors (s_values es)) (fun errs =>
  inr {| pd_labels := s_index ys; pd_heights := heights; pd_errors := errs |}))))).

(** The bars of the chart, once the error bars are drawn too. *)
Definition bar_data (d : DataFrame) (x y yerr : string) (capsize : Z)
  : Exn + list Bar :=
  and_then (plot_data d x y yerr) (fun p =>
  and_then (error_bars (pd_errors p)) (fun errs =>
  inr (make_bars capsize (pd_labels p) (pd_heights p) errs))).

(** ** matplotlib *)

Definition empty_axes : Axes :=
  {| ax_title := ""; ax_xlabel := ""; ax_legend := []; ax_bars := [];
     ax_patches := [] |}.

Definition new_figure (nrows ncols : nat) (size : Q * Q) : Figure :=
  {| figsize := size; grid := replicate nrows (replicate ncols empty_axes);
     tight := false |}.

(** [plt.subplots(nrows, ncols, figsize=size)] opens a figure, makes it the
    current one and returns it with the array of its panels. *)
Definition subplots (nrows ncols : nat) (size : Q * Q)
  : M (Figure * list (list AxRef)) :=
  (_ <- log (EvSubplots nrows ncols) ;;
   let f := new_figure nrows ncols size in
   _ <- modify (set_fig f) ;;
   ret (f, (fun r => (fun c => (r, c)) <$> seq 0 ncols) <$> seq 0 nrows))%py.

(** [a[r, c]] on the array of panels. *)
Definition index2 (a : list (list AxRef)) (r c : nat) : Exn + AxRef :=
  match a !! r with
  | Some row => match row !! c with
                | Some ax => inr ax
                | None => inl IndexError
                end
  | None => inl IndexError
  end.

Definition panel (f : Figure) (ax : AxRef) : option Axes :=
  match grid f !! ax.1 with
  | Some row => row !! ax.2
  | None => None
  end.

(** Adding the rectangles of a chart to a panel. *)
Definition add_patches (heights : list number) (a : Axes) : Axes :=
  {| ax_title := ax_title a; ax_xlabel := ax_xlabel a; ax_legend := ax_legend a;
     ax_bars := ax_bars a; ax_patches := ax_patches a ++ heights |}.

(** Completing the chart: the error bars are drawn, the legend entry is
    added, the tick labels, the axis label and the title are set. *)
Definition draw_bars (xlabel legend title : string) (bars : list Bar) (a : Axes) : Axes :=
  {| ax_title := title; ax_xlabel := xlabel;
     ax_legend := ax_legend a ++ [legend];
     ax_bars := ax_bars a ++ bars;
     ax_patches := ax_patches a |}.

Definition update_panel (ax : AxRef) (g : Axes -> Axes) (f : Figure) : Figure :=
  {| figsize := figsize f;
     grid := alter (alter g ax.2) ax.1 (grid f);
     tight := tight f |}.

(** Drawing into a panel of the open figure, where [subplots] made it. *)
Definition draw (ax : AxRef) (g : Axes -> Axes) : M unit :=
  (st <- get ;;
   match fig st with
   | Some f => modify (set_fig (update_panel ax g f))
   | None => raise (NameError "fig")
   end)%py.

(** [d.plot.bar(x=x, y=y, yerr=yerr, capsize=capsize, ax=ax, title=title)]:
    the data are prepared, the rectangles are added to the panel, and the
    chart is completed with its error bars. *)
Definition plot_bar (d : DataFrame) (x y yerr : string) (capsize : Z)
    (ax : AxRef) (title : string) : M unit :=
  (_ <- log (EvBar y ax) ;;
   p <- lift (plot_data d x y yerr) ;;
   _ <- draw ax (add_patches (pd_heights p)) ;;
   errs <- lift (error_bars (pd_errors p)) ;;
   draw ax (draw_bars x y title (make_bars capsize (pd_labels p) (pd_heights p) errs)))%py.

(** [plt.gcf()]: the current figure; one is opened when there is none. *)
Definition gcf : M Figure :=
  (st <- get ;;
   match fig st with
   | Some f => ret f
   | None => let f := new_figure 0 0 (6.4, 4.8)%Q in
             _ <- modify (set_fig f) ;; ret f
   end)%py.

(** Reading a global. *)
Definition var_df : M DataFrame :=
  (st <- get ;;
   match df st with Some d => ret d | None => raise (NameError "df") end)%py.

Definition var_axes : M (list (list AxRef)) :=
  (st <- get ;;
   match axes st with Some a => ret a | None => raise (NameError "axes") end)%py.

Definition input_path : string := "orderbook_benchmark.csv".
Definition output_path : string := "orderbook_benchmark.png".

(** Statements run in order; the first exception ends the run. *)
Fixpoint exec (stmts : list (M unit)) : M unit :=
  match stmts with
  | [] => ret tt
  | s :: rest => bind s (fun _ => exec rest)
  end.

(** A fresh Python process on a file system. *)
Definition boot (fs : gmap string File) : State :=
  {| files := fs; df := None; fig := None; axes := None;
     display := []; trace := [] |}.

(** ** Test data *)

Definition num (q : Q) : Cell := CNum (Fin q).

Definition record9 (name : string) (am asd mm msd dm dsd : Q) (bm bsd : Z)
  : gmap string Cell :=
  list_to_map
    [("Implementation", CText name);
     ("Add Mean", num am); ("Add StdDev", num asd);
     ("Modify Mean", num mm); ("Modify StdDev", num msd);
     ("Delete Mean", num dm); ("Delete StdDev", num dsd);
     ("BestPrice Mean", CInt bm); ("BestPrice StdDev", CInt bsd)].

Definition required_columns : list string :=
  ["Implementation"; "Add Mean"; "Add StdDev"; "Modify Mean"; "Modify StdDev";
   "Delete Mean"; "Delete StdDev"; "BestPrice Mean"; "BestPrice StdDev"].

(** The two rows of the example: ("A", 1.0, 0.1, 2.0, 0.2, 3.0, 0.3, 10, 1)
    and ("B", 1.5, 0.2, 2.5, 0.3, 3.5, 0.4, 12, 2). *)
Definition example_table : CsvTable :=
  {| header := required_columns;
     lines := [record9 "A" 1.0 0.1 2.0 0.2 3.0 0.3 10 1;
               record9 "B" 1.5 0.2 2.5 0.3 3.5 0.4 12 2] |}.

Definition example_fs : gmap string File := {[ input_path := FCsv example_table ]}.

(** The example with a column of notes. *)
Definition noted_table : CsvTable :=
  {| header := required_columns ++ ["Notes"];
     lines := [<["Notes" := CText "baseline"]> (record9 "A" 1.0 0.1 2.0 0.2 3.0 0.3 10 1);
               <["Notes" := CText "tuned"]> (record9 "B" 1.5 0.2 2.5 0.3 3.5 0.4 12 2)] |}.

(** The header with a column of notes, without a data line. *)
Definition noted_header_only_table : CsvTable :=
  {| header := required_columns ++ ["Notes"]; lines := [] |}.

(** The example without its "Delete StdDev" column. *)
Definition missing_table : CsvTable :=
  {| header := filter (fun c => c ≠ "Delete StdDev") required_columns;
     lines := delete "Delete StdDev" <$> lines example_table |}.


(** The header alone, without a data line. *)
Definition header_only_table : CsvTable :=
  {| header := required_columns; lines := [] |}.

(** The example with a mean that is not a number. *)
Definition text_table : CsvTable :=
  {| header := required_columns;
     lines := [record9 "A" 1.0 0.1 2.0 0.2 3.0 0.3 10 1;
               <["Modify Mean" := CText "slow"]>
                 (record9 "B" 1.5 0.2 2.5 0.3 3.5 0.4 12 2)] |}.


(** The example with a negative deviation. *)
Definition negative_table : CsvTable :=
  {| header := required_columns;
     lines := [record9 "A" 1.0 0.1 2.0 0.2 3.0 0.3 10 1;
               record9 "B" 1.5 0.2 2.5 0.3 3.5 0.4 12 (-2)] |}.

(** The example with the field "Add Mean" of its second row left empty. *)
Definition gap_table : CsvTable :=
  {| header := required_columns;
     lines := [record9 "A" 1.0 0.1 2.0 0.2 3.0 0.3 10 1;
               delete "Add Mean" (record9 "B" 1.5 0.2 2.5 0.3 3.5 0.4 12 2)] |}.

(** The example with a best-price mean that is an integer beyond uint64. *)
Definition huge_table : CsvTable :=
  {| header := required_columns;
     lines := [record9 "A" 1.0 0.1 2.0 0.2 3.0 0.3 (10 ^ 20) 1;
               record9 "B" 1.5 0.2 2.5 0.3 3.5 0.4 12 2] |}.

(** The example with its columns in the reverse order. *)
Definition reversed_table : CsvTable :=
  {| header := reverse required_columns; lines := lines example_table |}.

(** ** The data model of the input *)

(** The values of a column of the table, in the order of its lines. *)
Definition column (t : CsvTable) (c : string) : list Cell :=
  (fun r => default (CNum NaN) (r !! c)) <$> lines t.

(** The metrics: the label of the mean column and of the deviation column. *)
Definition metrics : list (string * string) :=
  [("Add Mean", "Add StdDev"); ("Modify Mean", "Modify StdDev");
   ("Delete Mean", "Delete StdDev"); ("BestPrice Mean", "BestPrice StdDev")].

Definition has_column (t : CsvTable) (c : string) : bool :=
  bool_decide (c ∈ header t).

(** The table without the columns that the script does not name. *)
Definition restrict (t : CsvTable) : CsvTable :=
  {| header := filter (fun c => c ∈ required_columns) (header t);
     lines := filter (fun kv : string * Cell => kv.1 ∈ required_columns) <$> lines t |}.


(** ** The figure of a run *)

Definition chart (title y : string) (bars : list Bar) : Axes :=
  {| ax_title := title; ax_xlabel := "Implementation"; ax_legend := [y];
     ax_bars := bars; ax_patches := bar_height <$> bars |}.

(** The figure once its four charts are drawn. *)
Definition drawn_figure (b1 b2 b3 b4 : list Bar) : Figure :=
  {| figsize := (12, 10)%Q;
     grid := [[chart "Add Orders (μs)" "Add Mean" b1;
               chart "Modify Orders (μs)" "Modify Mean" b2];
              [chart "Delete Orders (μs)" "Delete Mean" b3;
               chart "Best Price Lookup (ns)" "BestPrice Mean" b4]];
     tight := false |}.

(** The figure once it is laid out. *)
Definition final_figure (b1 b2 b3 b4 : list Bar) : Figure :=
  {| figsize := (12, 10)%Q;
     grid := grid (drawn_figure b1 b2 b3 b4);
     tight := true |}.

Definition final_trace : list Event :=
  [EvReadCsv input_path; EvSubplots 2 2;
   EvBar "Add Mean" (0, 0); EvBar "Modify Mean" (0, 1);
   EvBar "Delete Mean" (1, 0); EvBar "BestPrice Mean" (1, 1);
   EvTightLayout; EvSaveFig output_path; EvShow].

(** The state once the four charts are drawn. *)
Definition drawn_state (fs : gmap string File) (t : CsvTable)
    (b1 b2 b3 b4 : list Bar) : State :=
  {| files := fs;
     df := Some (frame_of_table t);
     fig := Some (drawn_figure b1 b2 b3 b4);
     axes := Some [[(0, 0); (0, 1)]; [(1, 0); (1, 1)]];
     display := [];
     trace := take 6 final_trace |}.

(** The state in which a run ends well. *)
Definition final_state (fs : gmap string File) (t : CsvTable)
    (b1 b2 b3 b4 : list Bar) : State :=
  let f := final_figure b1 b2 b3 b4 in
  {| files := <[output_path := FPng f]> fs;
     df := Some (frame_of_table t);
     fig := Some f;
     axes := Some [[(0, 0); (0, 1)]; [(1, 0); (1, 1)]];
     display := [f];
     trace := final_trace |}.

(** The bars that [df.plot.bar] computes for a metric of the table, and
    the rectangles that it adds before it checks the error values. *)
Definition bars_of (t : CsvTable) (y yerr : string) : Exn + list Bar :=
  bar_data (frame_of_table t) "Implementation" y yerr 4.

Definition rectangles_of (t : CsvTable) (y yerr : string) : list number :=
  match plot_data (frame_of_table t) "Implementation" y yerr with
  | inr p => pd_heights p
  | inl _ => []
  end.

(** The heights of the bars of a panel, the half-widths of their error
    bars and their labels. *)
Definition heights (a : Axes) : list number := bar_height <$> ax_bars a.

Definition half_widths (a : Axes) : list number := bar_yerr <$> ax_bars a.

Definition labels (a : Axes) : list Cell := bar_label <$> ax_bars a.

(** The panel at [ax] of the figure shows the metric of the columns [mean]
    and [dev] of the table: the fields of both columns are numbers, the
    heights are those of [mean], a missing one drawn as 0, and the
    half-widths of the error bars are those of [dev]. *)
Definition shows_metric (f : Figure) (ax : AxRef) (t : CsvTable)
    (mean dev : string) : Prop :=
  exists a means devs,
    panel f ax = Some a /\
    mapM cell_value (column t mean) = Some means /\
    mapM cell_value (column t dev) = Some devs /\
    heights a = fillna (Fin 0) <$> means /\ half_widths a = devs.

(** The panel at [ax] of the figure has the title and holds the chart of
    the metric. *)
Definition holds_chart (f : Figure) (ax : AxRef) (t : CsvTable)
    (title mean dev : string) : Prop :=
  exists a, panel f ax = Some a /\ ax_title a = title /\
    ax_legend a = [mean] /\ bars_of t mean dev = inr (ax_bars a).

Definition titles (f : Figure) : list (list string) :=
  (fun row : list Axes => ax_title <$> row) <$> grid f.

(** ** What a run keeps and what it shows *)

Definition is_read (e : Event) : bool :=
  match e with
  | EvReadCsv _ => true
  | _ => false
  end.

(** How often a table was loaded. *)
Definition reads (tr : list Event) : nat := length (List.filter is_read tr).

(** The dataset is loaded: [df] is the frame [d], the input file is [f],
    and the trace is the load followed by calls that are not loads. *)
Definition loaded (d : DataFrame) (f : File) (st : State) : Prop :=
  df st = Some d /\ files st !! input_path = Some f /\
  exists later, trace st = EvReadCsv input_path :: later /\ reads later = 0.

(** A statement keeps an invariant when the invariant holds after it,
    whether it raises or not. *)
Definition stable (inv : State -> Prop) (s : M unit) : Prop :=
  forall st, inv st -> inv (state_of (s st)).

(** Two frames are similar when every chart of the script has the same
    data in both. *)
Definition similar (d d' : DataFrame) : Prop :=
  forall m, m ∈ metrics ->
    plot_data d "Implementation" m.1 m.2 = plot_data d' "Implementation" m.1 m.2.

(** Two states are alike when they differ at most in their files and in
    similar frames. *)
Definition alike (st1 st2 : State) : Prop :=
  option_Forall2 similar (df st1) (df st2) /\
  fig st1 = fig st2 /\ axes st1 = axes st2 /\
  display st1 = display st2 /\ trace st1 = trace st2.

Definition alike_outcome (o1 o2 : Outcome unit) : Prop :=
  match o1, o2 with
  | Ok _ st1, Ok _ st2 => alike st1 st2
  | Raise e1 st1, Raise e2 st2 => e1 = e2 /\ alike st1 st2
  | _, _ => False
  end.

Definition respects (s : M unit) : Prop :=
  forall st1 st2, alike st1 st2 -> alike_outcome (s st1) (s st2).

Definition exception (o : Outcome unit) : option Exn :=
  match o with
  | Ok _ _ => None
  | Raise e _ => Some e
  end.

(** What a run renders: how it ended, the figure with its panels, titles,
    bars and error bars, the windows shown and the calls made. *)
Definition rendering (o : Outcome unit)
  : option Exn * option Figure * list Figure * list Event :=
  (exception o, fig (state_of o), display (state_of o), trace (state_of o)).

(** ** A run that fails in a chart *)

(** What [df.plot.bar] gives for each metric, in the order of the script. *)
Definition chart_results (t : CsvTable) : list (Exn + list Bar) :=
  (fun m => bars_of t m.1 m.2) <$> metrics.

(** The title and the legend of each chart, in the order of the script. *)
Definition chart_specs : list (string * string) :=
  [("Add Orders (μs)", "Add Mean"); ("Modify Orders (μs)", "Modify Mean");
   ("Delete Orders (μs)", "Delete Mean"); ("Best Price Lookup (ns)", "BestPrice Mean")].

(** The panel of a chart that has raised: the rectangles it had added. *)
Definition failed_panel (t : CsvTable) (k : nat) : Axes :=
  match metrics !! k with
  | Some m => add_patches (rectangles_of t m.1 m.2) empty_axes
  | None => empty_axes
  end.

(** The four panels once the first charts are drawn and the next one has
    raised, the others still empty, and the figure with these panels, row
    by row. *)
Definition panels_after (t : CsvTable) (drawn : list (list Bar)) : list Axes :=
  zip_with (fun s bars => chart s.1 s.2 bars) chart_specs drawn
  ++ failed_panel t (length drawn) :: replicate (3 - length drawn) empty_axes.

Definition figure_after (t : CsvTable) (drawn : list (list Bar)) : Figure :=
  {| figsize := (12, 10)%Q;
     grid := [take 2 (panels_after t drawn); take 2 (drop 2 (panels_after t drawn))];
     tight := false |}.

(** The state in which the chart after the [drawn] ones has raised. *)
Definition failed_state (fs : gmap string File) (t : CsvTable)
    (drawn : list (list Bar)) : State :=
  {| files := fs;
     df := Some (frame_of_table t);
     fig := Some (figure_after t drawn);
     axes := Some [[(0, 0); (0, 1)]; [(1, 0); (1, 1)]];
     display := [];
     trace := take (3 + length drawn) final_trace |}.

(** Membership in the lists of column names, by computation. *)
Ltac is_required := apply (bool_decide_unpack _); vm_compute; exact I.

Ltac is_metric := unfold metrics; rewrite !elem_of_cons; tauto.

(** * The script *)

Section Script.

(** The machine on which the script runs. *)
Variable env : Env.

(** [plt.tight_layout()] lays out the current figure. *)
Definition tight_layout : M unit :=
  (_ <- log EvTightLayout ;;
   f <- gcf ;;
   match layout_error env f with
   | Some e => raise e
   | None => modify (set_fig {| figsize := figsize f; grid := grid f; tight := true |})
   end)%py.

(** [plt.savefig(path)] writes the current figure to the file. *)
Definition savefig (path : string) : M unit :=
  (_ <- log (EvSaveFig path) ;;
   f <- gcf ;;
   match save_error env f path with
   | Some e => raise e
   | None => modify (fun st => set_files (<[path := FPng f]> (files st)) st)
   end)%py.

(** [plt.show()] puts the open figure on display. *)
Definition show : M unit :=
  (_ <- log EvShow ;;
   st <- get ;;
   match fig st with
   | Some f =>
       match show_error env f with
       | Some e => raise e
       | None => modify (add_display f)
       end
   | None => ret tt
   end)%py.

(** [df = pd.read_csv('orderbook_benchmark.csv')] *)
Definition line4 : M unit :=
  (d <- read_csv input_path ;; modify (set_df d))%py.

(** [fig, axes = plt.subplots(2, 2, figsize=(12, 10))] *)
Definition line5 : M unit :=
  (fa <- subplots 2 2 (12, 10)%Q ;;
   _ <- modify (set_fig fa.1) ;; modify (set_axes fa.2))%py.

(** [df.plot.bar(x='Implementation', y=y, yerr=yerr, capsize=4,
    ax=axes[r, c], title=title)] *)
Definition bar_stmt (y yerr : string) (r c : nat) (title : string) : M unit :=
  (d <- var_df ;;
   a <- var_axes ;;
   ax <- lift (index2 a r c) ;;
   plot_bar d "Implementation" y yerr 4 ax title)%py.

Definition line8 : M unit :=
  bar_stmt "Add Mean" "Add StdDev" 0 0 "Add Orders (μs)".
Definition line10 : M unit :=
  bar_stmt "Modify Mean" "Modify StdDev" 0 1 "Modify Orders (μs)".
Definition line12 : M unit :=
  bar_stmt "Delete Mean" "Delete StdDev" 1 0 "Delete Orders (μs)".
Definition line14 : M unit :=
  bar_stmt "BestPrice Mean" "BestPrice StdDev" 1 1 "Best Price Lookup (ns)".

(** [plt.tight_layout()], [plt.savefig('orderbook_benchmark.png')],
    [plt.show()] *)
Definition line16 : M unit := tight_layout.
Definition line17 : M unit := savefig output_path.
Definition line18 : M unit := show.

Definition script : list (M unit) :=
  [line4; line5; line8; line10; line12; line14; line16; line17; line18].

Definition main (fs : gmap string File) : Outcome unit := exec script (boot fs).

(** The statements after the load, and those after the charts. *)
Definition after_load : list (M unit) := tail script.

Definition after_charts : list (M unit) := drop 6 script.

(** How a run on a table alone ends, and after which calls. *)
Definition ending (t : CsvTable) : option Exn * list Event :=
  let o := main {[ input_path := FCsv t ]} in
  (exception o, trace (state_of o)).

(** How a run ends once its four charts are drawn: in the exception of
    the layout, of the save or of the show, or well. *)
Definition finish (fs : gmap string File) (t : CsvTable)
    (b1 b2 b3 b4 : list Bar) : Outcome unit :=
  let f := final_figure b1 b2 b3 b4 in
  let st6 := drawn_state fs t b1 b2 b3 b4 in
  match layout_error env (drawn_figure b1 b2 b3 b4) with
  | Some e => Raise e (add_event EvTightLayout st6)
  | None =>
      let st7 := set_fig f (add_event EvTightLayout st6) in
      match save_error env f output_path with
      | Some e => Raise e (add_event (EvSaveFig output_path) st7)
      | None =>
          let st8 := set_files (<[output_path := FPng f]> fs)
                       (add_event (EvSaveFig output_path) st7) in
          match show_error env f with
          | Some e => Raise e (add_event EvShow st8)
          | None => Ok tt (final_state fs t b1 b2 b3 b4)
          end
      end
  end.

(** * Properties *)

(** ** The data of a bar chart *)

Lemma field_frame_of_table (t : CsvTable) (c : string) :
  field c <$> rows (frame_of_table t) = column t c.
Proof.
  unfold column, frame_of_table; simpl.
  rewrite fmap_imap. generalize 0.
  induction (lines t) as [|r l IH]; intros n; simpl; [done|].
  f_equal. apply (IH (S n)).
Qed.

Lemma length_rows_frame_of_table (t : CsvTable) :
  length (rows (frame_of_table t)) = length (lines t).
Proof. unfold frame_of_table; simpl. apply length_imap. Qed.

Lemma length_column (t : CsvTable) (c : string) :
  length (column t c) = length (lines t).
Proof. unfold column. by rewrite length_fmap. Qed.

Lemma make_bars_labels cap (ls : list Cell) (hs es : list number) :
  length hs = length ls -> length es = length ls ->
  bar_label <$> make_bars cap ls hs es = ls.
Proof.
  revert hs es. induction ls as [|l ls IH]; intros [|h hs] [|e es]; simpl; try done.
  intros ? ?. f_equal. apply IH; lia.
Qed.

Lemma make_bars_heights cap (ls : list Cell) (hs es : list number) :
  length hs = length ls -> length es = length ls ->
  bar_height <$> make_bars cap ls hs es = hs.
Proof.
  revert hs es. induction ls as [|l ls IH]; intros [|h hs] [|e es]; simpl; try done.
  intros ? ?. f_equal. apply IH; lia.
Qed.

Lemma make_bars_yerrs cap (ls : list Cell) (hs es : list number) :
  length hs = length ls -> length es = length ls ->
  bar_yerr <$> make_bars cap ls hs es = es.
Proof.
  revert hs es. induction ls as [|l ls IH]; intros [|h hs] [|e es]; simpl; try done.
  intros ? ?. f_equal. apply IH; lia.
Qed.

Lemma make_bars_capsize cap (ls : list Cell) (hs es : list number) :
  Forall (fun b => bar_capsize b = cap) (make_bars cap ls hs es).
Proof.
  revert hs es. induction ls as [|l ls IH]; intros [|h hs] [|e es]; simpl;
    try constructor; auto.
Qed.

Lemma set_index_rows_field (x y : string) (rs : list (Cell * gmap string Cell)) :
  y ≠ x ->
  field y <$> ((fun r => (field x r, delete x r.2)) <$> rs) = field y <$> rs.
Proof.
  intros Hne. rewrite <- list_fmap_compose. apply list_fmap_ext.
  intros i r _. unfold field; simpl. by rewrite lookup_delete_ne.
Qed.

Lemma set_index_rows_index (x : string) (rs : list (Cell * gmap string Cell)) :
  fst <$> ((fun r => (field x r, delete x r.2)) <$> rs) = field x <$> rs.
Proof. by rewrite <- list_fmap_compose. Qed.

(** A column of numeric type has a value, and all its fields are
    numbers. *)
Lemma column_values_Some (vals : list Cell) (vs : list number) :
  column_values vals = Some vs -> mapM cell_value vals = Some vs /\ vals ≠ [].
Proof.
  unfold column_values. destruct (numeric_dtype vals) eqn:Hdt; [|done].
  intros Hvs. split; [done|]. intros ->. discriminate.
Qed.

Lemma numeric_data_inr (vals : list Cell) (hs : list number) :
  numeric_data vals = inr hs ->
  exists vs, mapM cell_value vals = Some vs /\ hs = fillna (Fin 0) <$> vs /\ vals ≠ [].
Proof.
  unfold numeric_data. destruct (column_values vals) as [vs|] eqn:Hvs; [|done].
  intros [= <-]. apply column_values_Some in Hvs as [? ?]. by exists vs.
Qed.

Lemma convert_errors_inr (vals : list Cell) (es : list number) :
  convert_errors vals = inr (Some es) -> mapM cell_value vals = Some es.
Proof.
  unfold convert_errors. destruct (column_values vals) as [vs|] eqn:Hvs.
  - intros [= <-]. by apply column_values_Some in Hvs as [? ?].
  - by destruct vals as [|[z|[q|neg|]|s] vals].
Qed.

Lemma error_bars_inr (errs : option (list number)) (es : list number) :
  error_bars errs = inr es ->
  errs = Some es /\ Forall (fun v => negative v = false) es.
Proof.
  unfold error_bars. destruct errs as [ms|]; [|done].
  destruct (existsb negative ms) eqn:Hneg; [done|].
  intros [= <-]. split; [done|].
  apply Forall_forall. intros v Hv.
  destruct (negative v) eqn:Hv'; [|done].
  assert (existsb negative ms = true) as Hex; [|congruence].
  apply existsb_exists. exists v. split; [by apply list_elem_of_In|done].
Qed.

(** What the data of a chart say about the frame they were taken from. *)
Lemma plot_data_inr (d : DataFrame) (x y yerr : string) (p : PlotData) :
  plot_data d x y yerr = inr p ->
  (x ∈ columns d /\ y ∈ columns d /\ yerr ∈ columns d) /\
  pd_labels p = field x <$> rows d /\
  (exists vs, mapM cell_value (field y <$> rows d) = Some vs /\
              pd_heights p = fillna (Fin 0) <$> vs) /\
  (forall es, pd_errors p = Some es ->
              mapM cell_value (field yerr <$> rows d) = Some es) /\
  rows d ≠ [].
Proof.
  unfold plot_data, error_column, set_index, getitem; simpl.
  destruct (decide (x ∈ columns d)) as [Hx|]; [simpl|done].
  destruct (decide (y ∈ _)) as [[Hyx Hy]%list_elem_of_filter|]; [simpl|done].
  destruct (decide (yerr ∈ _)) as [[Hex He]%list_elem_of_filter|]; simpl.
  2:{ by destruct (existsb _ _). }
  rewrite set_index_rows_index, !set_index_rows_field by done.
  destruct (numeric_data _) as [|hs] eqn:Hh; [done|simpl].
  destruct (convert_errors _) as [|es] eqn:Hes; [done|simpl].
  intros [= <-]. simpl.
  apply numeric_data_inr in Hh as (vs & Hvs & -> & Hne).
  split; [done|]. split; [done|]. split; [by exists vs|]. split.
  - intros es' ->. by apply convert_errors_inr.
  - by intros Hnil; rewrite Hnil in Hne.
Qed.

(** The bars of a chart, from its data. *)
Lemma bar_data_plot_data (d : DataFrame) (x y yerr : string) (cap : Z)
    (bars : list Bar) :
  bar_data d x y yerr cap = inr bars ->
  exists p es,
    plot_data d x y yerr = inr p /\ pd_errors p = Some es /\
    Forall (fun v => negative v = false) es /\
    bars = make_bars cap (pd_labels p) (pd_heights p) es /\
    length (pd_heights p) = length (pd_labels p) /\
    length es = length (pd_labels p).
Proof.
  unfold bar_data. destruct (plot_data d x y yerr) as [|p] eqn:Hp; [done|simpl].
  destruct (error_bars _) as [|es] eqn:Hes; [done|simpl].
  intros [= <-]. apply error_bars_inr in Hes as [Hes Hpos].
  exists p, es. do 4 (split; [done|]).
  apply plot_data_inr in Hp as (_ & Hl & (vs & Hvs & Hh) & He & _).
  specialize (He es Hes). apply length_mapM in Hvs, He.
  rewrite Hl, Hh, !length_fmap in *. split; congruence.
Qed.

(** What a bar chart that was drawn says about the frame it was drawn
    from. *)
Lemma bar_data_inr (d : DataFrame) (x y yerr : string) (cap : Z) (bars : list Bar) :
  bar_data d x y yerr cap = inr bars ->
  (x ∈ columns d /\ y ∈ columns d /\ yerr ∈ columns d) /\
  bar_label <$> bars = field x <$> rows d /\
  (exists vs, mapM cell_value (field y <$> rows d) = Some vs /\
              bar_height <$> bars = fillna (Fin 0) <$> vs) /\
  mapM cell_value (field yerr <$> rows d) = Some (bar_yerr <$> bars) /\
  Forall (fun b => negative (bar_yerr b) = false /\ bar_capsize b = cap) bars /\
  rows d ≠ [].
Proof.
  intros (p & es & Hp & Hes & Hpos & -> & Hlh & Hle)%bar_data_plot_data.
  apply plot_data_inr in Hp as (Hcols & Hl & (vs & Hvs & Hh) & He & Hrows).
  rewrite make_bars_labels, make_bars_heights, make_bars_yerrs by done.
  split; [done|]. split; [done|]. split; [by exists vs|].
  split; [by apply He|]. split; [|done].
  apply Forall_forall. intros b Hb. split.
  - assert (bar_yerr b ∈ bar_yerr <$> make_bars cap (pd_labels p) (pd_heights p) es)
      as Hin by (by apply list_elem_of_fmap_2).
    rewrite make_bars_yerrs in Hin by done.
    by eapply Forall_forall in Hpos.
  - by eapply Forall_forall in Hb; [|apply make_bars_capsize].
Qed.

(** ** The bars of a metric of the table *)

Lemma bars_of_inr (t : CsvTable) (y yerr : string) (bars : list Bar) :
  bars_of t y yerr = inr bars ->
  ("Implementation" ∈ header t /\ y ∈ header t /\ yerr ∈ header t) /\
  length bars = length (lines t) /\
  bar_label <$> bars = column t "Implementation" /\
  (exists vs, mapM cell_value (column t y) = Some vs /\
              bar_height <$> bars = fillna (Fin 0) <$> vs) /\
  mapM cell_value (column t yerr) = Some (bar_yerr <$> bars) /\
  Forall (fun b => negative (bar_yerr b) = false /\ bar_capsize b = 4%Z) bars /\
  1 <= length (lines t).
Proof.
  unfold bars_of. intros (Hcols & Hl & Hh & He & Hb & Hrows)%bar_data_inr.
  rewrite !field_frame_of_table in *.
  split; [exact Hcols|]. split.
  { rewrite <- (length_fmap bar_label), Hl. apply length_column. }
  do 4 (split; [done|]).
  rewrite <- length_rows_frame_of_table.
  destruct (rows (frame_of_table t)); [done|simpl; lia].
Qed.

(** A chart depends on the frame through its three columns only. *)
Lemma plot_data_ext (d d' : DataFrame) (x y yerr : string) :
  (forall c, c ∈ [x; y; yerr] -> c ∈ columns d <-> c ∈ columns d') ->
  (forall c, c ∈ [x; y; yerr] -> field c <$> rows d = field c <$> rows d') ->
  plot_data d x y yerr = plot_data d' x y yerr.
Proof.
  intros Hcols Hfields.
  assert (x ∈ [x; y; yerr]) as Hx by (rewrite !elem_of_cons; tauto).
  assert (y ∈ [x; y; yerr]) as Hy by (rewrite !elem_of_cons; tauto).
  assert (yerr ∈ [x; y; yerr]) as He by (rewrite !elem_of_cons; tauto).
  unfold plot_data, error_column, set_index, getitem; simpl.
  destruct (decide (x ∈ columns d)) as [Hin|Hout];
    [rewrite decide_True by (by apply Hcols)|rewrite decide_False by (by rewrite <- Hcols)];
    simpl; [|done].
  destruct (decide (y ∈ filter _ (columns d))) as [Hin'|Hout'].
  - apply list_elem_of_filter in Hin' as [Hyx Hyin].
    rewrite (decide_True (P := y ∈ filter _ (columns d')))
      by (apply list_elem_of_filter; split; [done|by apply Hcols]).
    simpl. rewrite !set_index_rows_index, (Hfields x Hx).
    destruct (decide (yerr ∈ filter _ (columns d))) as [Hin''|Hout''].
    + apply list_elem_of_filter in Hin'' as [Hex Hein].
      rewrite (decide_True (P := yerr ∈ filter _ (columns d')))
        by (apply list_elem_of_filter; split; [done|by apply Hcols]).
      simpl. rewrite !set_index_rows_field by done.
      by rewrite (Hfields y Hy), (Hfields yerr He).
    + rewrite (decide_False (P := yerr ∈ filter _ (columns d')));
        [by destruct (existsb _ _)|].
      intros [Hex Hein]%list_elem_of_filter. apply Hout''.
      apply list_elem_of_filter. split; [done|by apply Hcols].
  - rewrite (decide_False (P := y ∈ filter _ (columns d'))); [done|].
    intros [Hyx Hyin]%list_elem_of_filter. apply Hout'.
    apply list_elem_of_filter. split; [done|by apply Hcols].
Qed.

(** How the data of a chart are refused. *)
Lemma plot_data_inl (d : DataFrame) (x y yerr : string) (e : Exn) :
  plot_data d x y yerr = inl e ->
  (e = KeyError x /\ x ∉ columns d) \/
  (e = KeyError y /\ (y = x \/ y ∉ columns d)) \/
  (e = KeyError yerr /\ (yerr = x \/ yerr ∉ columns d)) \/
  e = AttributeError \/ e = TypeError.
Proof.
  unfold plot_data, error_column, set_index, getitem; simpl.
  destruct (decide (x ∈ columns d)) as [Hx|Hx]; simpl;
    [|intros [= <-]; by left].
  destruct (decide (y ∈ filter _ (columns d))) as [Hy|Hy]; simpl.
  2:{ intros [= <-]. right; left. split; [done|].
      destruct (decide (y = x)) as [|Hne]; [by left|right].
      intros Hin. apply Hy, list_elem_of_filter. by split. }
  destruct (decide (yerr ∈ filter _ (columns d))) as [He|He]; simpl.
  2:{ destruct (existsb _ _); simpl; intros [= <-]; [tauto|].
      right; right; left. split; [done|].
      destruct (decide (yerr = x)) as [|Hne]; [by left|right].
      intros Hin. apply He, list_elem_of_filter. by split. }
  destruct (numeric_data _) as [e1|hs] eqn:Hh; simpl.
  { intros [= <-]. unfold numeric_data in Hh.
    destruct (column_values _); simplify_eq; tauto. }
  destruct (convert_errors _) as [e2|es] eqn:Hes; simpl; [|done].
  intros [= <-]. unfold convert_errors in Hes.
  destruct (column_values _); [done|].
  destruct (field yerr <$> _) as [|[z|[q|neg|]|s] vals]; simplify_eq; tauto.
Qed.

Lemma bar_data_inl (d : DataFrame) (x y yerr : string) (cap : Z) (e : Exn) :
  bar_data d x y yerr cap = inl e ->
  plot_data d x y yerr = inl e \/
  (exists p, plot_data d x y yerr = inr p /\ (e = TypeError \/ e = ValueError)).
Proof.
  unfold bar_data. destruct (plot_data d x y yerr) as [e'|p]; simpl.
  { intros [= <-]. by left. }
  intros He. right. exists p. split; [done|].
  unfold error_bars in He.
  destruct (pd_errors p) as [es|]; [destruct (existsb _ _)|]; simplify_eq/=; tauto.
Qed.

Lemma in_required_columns (c : string) :
  c ∈ required_columns ->
  c = "Implementation" \/
  c = "Add Mean" \/ c = "Add StdDev" \/ c = "Modify Mean" \/ c = "Modify StdDev" \/
  c = "Delete Mean" \/ c = "Delete StdDev" \/
  c = "BestPrice Mean" \/ c = "BestPrice StdDev".
Proof.
  unfold required_columns. rewrite !elem_of_cons, elem_of_nil. tauto.
Qed.

Lemma bars_of_inl (t : CsvTable) (m : string * string) (c : string) :
  m ∈ metrics -> bars_of t m.1 m.2 = inl (KeyError c) ->
  c ∈ required_columns /\ c ∉ header t.
Proof.
  intros Hm Hbars. unfold metrics in Hm. rewrite !elem_of_cons, elem_of_nil in Hm.
  apply bar_data_inl in Hbars as [Hp|(p & _ & [?|?])]; [|done..].
  apply plot_data_inl in Hp. simpl in Hp.
  destruct Hm as [->|[->|[->|[->|[]]]]]; simpl in Hp;
    (destruct Hp as [[He Hc]|[[He [Hc|Hc]]|[[He [Hc|Hc]]|[He|He]]]];
     try discriminate; simplify_eq; (split; [is_required|done])).
Qed.


(** ** Running the script *)

Arguments plot_data : simpl never.
Arguments bar_data : simpl never.

(** The statements, one by one. *)

Lemma exec_cons (s : M unit) (rest : list (M unit)) (st : State) :
  exec (s :: rest) st =
  match s st with
  | Ok _ st' => exec rest st'
  | Raise e st' => Raise e st'
  end.
Proof. reflexivity. Qed.

Lemma line4_eq (st : State) :
  line4 st =
  let st1 := add_event (EvReadCsv input_path) st in
  match files st !! input_path with
  | Some f => match parse f with
              | inr d => Ok tt (set_df d st1)
              | inl e => Raise e st1
              end
  | None => Raise (FileNotFoundError input_path) st1
  end.
Proof.
  unfold line4, read_csv, bind, log, modify, get, lift; simpl.
  destruct (files st !! input_path) as [f|]; [|done]. by destruct (parse f).
Qed.

Lemma line5_eq (st : State) :
  line5 st =
  Ok tt (set_axes [[(0, 0); (0, 1)]; [(1, 0); (1, 1)]]
           (set_fig (new_figure 2 2 (12, 10)%Q) (add_event (EvSubplots 2 2) st))).
Proof. reflexivity. Qed.

(** A chart: when it raises, the rectangles are in the panel if the data
    were accepted and the error bars refused. *)
Lemma bar_stmt_eq (y yerr : string) (r c : nat) (title : string) (st : State)
    (d : DataFrame) (a : list (list AxRef)) (ax : AxRef) (f : Figure) :
  df st = Some d -> axes st = Some a -> index2 a r c = inr ax -> fig st = Some f ->
  bar_stmt y yerr r c title st =
  let st1 := add_event (EvBar y ax) st in
  match bar_data d "Implementation" y yerr 4 with
  | inr bars =>
      Ok tt (set_fig (update_panel ax (draw_bars "Implementation" y title bars)
                        (update_panel ax (add_patches (bar_height <$> bars)) f)) st1)
  | inl e =>
      Raise e (set_fig match plot_data d "Implementation" y yerr with
                       | inr p => update_panel ax (add_patches (pd_heights p)) f
                       | inl _ => f
                       end st1)
  end.
Proof.
  intros Hd Ha Hax Hf. cbv zeta.
  destruct (bar_data d "Implementation" y yerr 4) as [e|bars] eqn:Hb.
  - unfold bar_data in Hb.
    unfold bar_stmt, var_df, var_axes, plot_bar, draw, bind, get, log, lift, modify.
    simpl. rewrite Hd; simpl. rewrite Ha; simpl. rewrite Hax; simpl.
    destruct (plot_data d "Implementation" y yerr) as [e'|p]; simpl in *.
    + injection Hb as <-. destruct st; simpl in *; by subst.
    + rewrite Hf; simpl. destruct (error_bars (pd_errors p)); simplify_eq/=.
      reflexivity.
  - pose proof (bar_data_plot_data _ _ _ _ _ _ Hb)
      as (p & es & Hp & Hes & Hpos & -> & Hlh & Hle).
    unfold bar_data in Hb. rewrite Hp in Hb. simpl in Hb. rewrite Hes in Hb.
    unfold bar_stmt, var_df, var_axes, plot_bar, draw, bind, get, log, lift, modify.
    simpl. rewrite Hd; simpl. rewrite Ha; simpl. rewrite Hax; simpl.
    rewrite Hp; simpl. rewrite Hf; simpl. rewrite Hes.
    destruct (error_bars (Some es)) as [|es'] eqn:Hes'; [done|]. simpl.
    injection Hb as Hb. rewrite make_bars_heights by done.
    apply error_bars_inr in Hes' as [[= <-] _]. reflexivity.
Qed.

Lemma line16_eq (st : State) (f : Figure) :
  fig st = Some f ->
  line16 st =
  match layout_error env f with
  | Some e => Raise e (add_event EvTightLayout st)
  | None =>
      Ok tt (set_fig {| figsize := figsize f; grid := grid f; tight := true |}
               (add_event EvTightLayout st))
  end.
Proof.
  intros Hf. unfold line16, tight_layout, gcf, bind, log, get, modify; simpl.
  rewrite Hf; simpl. destruct (layout_error env f); reflexivity.
Qed.

Lemma line17_eq (st : State) (f : Figure) :
  fig st = Some f ->
  line17 st =
  match save_error env f output_path with
  | Some e => Raise e (add_event (EvSaveFig output_path) st)
  | None =>
      Ok tt (set_files (<[output_path := FPng f]> (files st))
               (add_event (EvSaveFig output_path) st))
  end.
Proof.
  intros Hf. unfold line17, savefig, gcf, bind, log, get, modify; simpl.
  rewrite Hf; simpl. destruct (save_error env f output_path); reflexivity.
Qed.

Lemma line18_eq (st : State) (f : Figure) :
  fig st = Some f ->
  line18 st =
  match show_error env f with
  | Some e => Raise e (add_event EvShow st)
  | None => Ok tt (add_display f (add_event EvShow st))
  end.
Proof.
  intros Hf. unfold line18, show, bind, log, get, modify; simpl.
  rewrite Hf; simpl. destruct (show_error env f); reflexivity.
Qed.

Ltac step_bar :=
  rewrite exec_cons;
  unfold line8, line10, line12, line14;
  erewrite bar_stmt_eq by reflexivity; cbv zeta.

(** The run on a table, from the load to the last chart. *)
Lemma main_load (fs : gmap string File) (t : CsvTable) :
  fs !! input_path = Some (FCsv t) ->
  main fs = exec after_load (set_df (frame_of_table t)
                               (add_event (EvReadCsv input_path) (boot fs))).
Proof.
  intros Hf. unfold main, script.
  rewrite exec_cons, line4_eq. cbv zeta. change (files (boot fs)) with fs.
  by rewrite Hf.
Qed.

(** The last three statements. *)
Lemma finish_eq (fs : gmap string File) (t : CsvTable) (b1 b2 b3 b4 : list Bar) :
  exec after_charts (drawn_state fs t b1 b2 b3 b4) = finish fs t b1 b2 b3 b4.
Proof.
  unfold after_charts, script, drop, finish. cbv zeta.
  rewrite exec_cons. erewrite line16_eq by reflexivity.
  destruct (layout_error env (drawn_figure b1 b2 b3 b4)); [done|].
  rewrite exec_cons. erewrite line17_eq by reflexivity.
  change {| figsize := figsize (drawn_figure b1 b2 b3 b4);
            grid := grid (drawn_figure b1 b2 b3 b4); tight := true |}
    with (final_figure b1 b2 b3 b4).
  destruct (save_error env (final_figure b1 b2 b3 b4) output_path); [done|].
  rewrite exec_cons. erewrite line18_eq by reflexivity.
  by destruct (show_error env (final_figure b1 b2 b3 b4)).
Qed.

(** The run on a table whose four charts are drawn. *)
Lemma main_drawn (fs : gmap string File) (t : CsvTable) (b1 b2 b3 b4 : list Bar) :
  fs !! input_path = Some (FCsv t) ->
  bars_of t "Add Mean" "Add StdDev" = inr b1 ->
  bars_of t "Modify Mean" "Modify StdDev" = inr b2 ->
  bars_of t "Delete Mean" "Delete StdDev" = inr b3 ->
  bars_of t "BestPrice Mean" "BestPrice StdDev" = inr b4 ->
  main fs = finish fs t b1 b2 b3 b4.
Proof.
  unfold bars_of. intros Hf H1 H2 H3 H4.
  rewrite (main_load fs t Hf). unfold after_load, script, tail.
  rewrite exec_cons, line5_eq.
  step_bar. rewrite H1. step_bar. rewrite H2.
  step_bar. rewrite H3. step_bar. rewrite H4.
  apply finish_eq.
Qed.

(** The run on a table, chart by chart: the first chart that raises ends
    it, in the state with the charts before it drawn. *)
Lemma main_first_failure (fs : gmap string File) (t : CsvTable)
    (drawn : list (list Bar)) (e : Exn) (rest : list (Exn + list Bar)) :
  fs !! input_path = Some (FCsv t) ->
  chart_results t = ((inr <$> drawn) ++ inl e :: rest)%list ->
  main fs = Raise e (failed_state fs t drawn).
Proof.
  intros Hf Hres. unfold chart_results, metrics, bars_of in Hres.
  cbn [fmap list_fmap fst snd] in Hres.
  rewrite (main_load fs t Hf). unfold after_load, script, tail.
  rewrite exec_cons, line5_eq.
  destruct drawn as [|b1 [|b2 [|b3 [|b4 drawn]]]]; simpl in Hres;
    simplify_eq; repeat (step_bar;
      match goal with H : bar_data _ _ _ _ _ = _ |- _ => rewrite H; clear H end);
    try (unfold failed_state, figure_after, panels_after, failed_panel, rectangles_of;
         simpl; by destruct (plot_data _ _ _ _)).
  by destruct drawn.
Qed.

(** A run on a table ends in its first chart that raises, or goes on with
    its four charts drawn. *)
Lemma main_table (fs : gmap string File) (t : CsvTable) :
  fs !! input_path = Some (FCsv t) ->
  (exists drawn e rest,
     chart_results t = ((inr <$> drawn) ++ inl e :: rest)%list /\
     main fs = Raise e (failed_state fs t drawn)) \/
  (exists b1 b2 b3 b4,
     bars_of t "Add Mean" "Add StdDev" = inr b1 /\
     bars_of t "Modify Mean" "Modify StdDev" = inr b2 /\
     bars_of t "Delete Mean" "Delete StdDev" = inr b3 /\
     bars_of t "BestPrice Mean" "BestPrice StdDev" = inr b4 /\
     main fs = finish fs t b1 b2 b3 b4).
Proof.
  intros Hf.
  destruct (bars_of t "Add Mean" "Add StdDev") as [e1|b1] eqn:H1.
  { left. exists [], e1, (tail (chart_results t)).
    assert (chart_results t = ((inr <$> []) ++ inl e1 :: tail (chart_results t))%list) as Hres
      by (unfold chart_results, metrics; cbn [fmap list_fmap fst snd tail]; by rewrite H1).
    split; [done|]. by apply (main_first_failure fs t _ _ _ Hf Hres). }
  destruct (bars_of t "Modify Mean" "Modify StdDev") as [e2|b2] eqn:H2.
  { left. exists [b1], e2, (drop 2 (chart_results t)).
    assert (chart_results t = ((inr <$> [b1]) ++ inl e2 :: drop 2 (chart_results t))%list) as Hres
      by (unfold chart_results, metrics; cbn [fmap list_fmap fst snd drop]; by rewrite H1, H2).
    split; [done|]. by apply (main_first_failure fs t _ _ _ Hf Hres). }
  destruct (bars_of t "Delete Mean" "Delete StdDev") as [e3|b3] eqn:H3.
  { left. exists [b1; b2], e3, (drop 3 (chart_results t)).
    assert (chart_results t = ((inr <$> [b1; b2]) ++ inl e3 :: drop 3 (chart_results t))%list) as Hres
      by (unfold chart_results, metrics; cbn [fmap list_fmap fst snd drop]; by rewrite H1, H2, H3).
    split; [done|]. by apply (main_first_failure fs t _ _ _ Hf Hres). }
  destruct (bars_of t "BestPrice Mean" "BestPrice StdDev") as [e4|b4] eqn:H4.
  { left. exists [b1; b2; b3], e4, (drop 4 (chart_results t)).
    assert (chart_results t = ((inr <$> [b1; b2; b3]) ++ inl e4 :: drop 4 (chart_results t))%list) as Hres
      by (unfold chart_results, metrics; cbn [fmap list_fmap fst snd drop];
          by rewrite H1, H2, H3, H4).
    split; [done|]. by apply (main_first_failure fs t _ _ _ Hf Hres). }
  right. exists b1, b2, b3, b4. do 4 (split; [done|]). by apply main_drawn.
Qed.

(** A run without a table ends in the load. *)
Lemma main_no_table (fs : gmap string File) :
  (forall t, fs !! input_path ≠ Some (FCsv t)) ->
  exists e,
    main fs = Raise e (add_event (EvReadCsv input_path) (boot fs)) /\
    (fs !! input_path = None -> e = FileNotFoundError input_path).
Proof.
  intros Hno. unfold main, script. rewrite exec_cons, line4_eq. cbv zeta.
  change (files (boot fs)) with fs.
  destruct (fs !! input_path) as [[t|g| | |]|] eqn:Hf; simpl;
    try (by destruct (Hno t)); by eexists.
Qed.

(** The successful run: the table is read, the four charts are drawn, and
    the machine lays the figure out, writes it and shows it. *)
Lemma main_ok (fs : gmap string File) (t : CsvTable) (b1 b2 b3 b4 : list Bar) :
  fs !! input_path = Some (FCsv t) ->
  bars_of t "Add Mean" "Add StdDev" = inr b1 ->
  bars_of t "Modify Mean" "Modify StdDev" = inr b2 ->
  bars_of t "Delete Mean" "Delete StdDev" = inr b3 ->
  bars_of t "BestPrice Mean" "BestPrice StdDev" = inr b4 ->
  layout_error env (drawn_figure b1 b2 b3 b4) = None ->
  save_error env (final_figure b1 b2 b3 b4) output_path = None ->
  show_error env (final_figure b1 b2 b3 b4) = None ->
  main fs = Ok tt (final_state fs t b1 b2 b3 b4).
Proof.
  intros Hf H1 H2 H3 H4 Hl Hs Hw.
  rewrite (main_drawn fs t b1 b2 b3 b4) by done.
  unfold finish. by rewrite Hl, Hs, Hw.
Qed.

(** There is no other successful run. *)
Lemma main_ok_inv (fs : gmap string File) (st : State) :
  main fs = Ok tt st ->
  exists t b1 b2 b3 b4,
    fs !! input_path = Some (FCsv t) /\
    bars_of t "Add Mean" "Add StdDev" = inr b1 /\
    bars_of t "Modify Mean" "Modify StdDev" = inr b2 /\
    bars_of t "Delete Mean" "Delete StdDev" = inr b3 /\
    bars_of t "BestPrice Mean" "BestPrice StdDev" = inr b4 /\
    (layout_error env (drawn_figure b1 b2 b3 b4) = None /\
     save_error env (final_figure b1 b2 b3 b4) output_path = None /\
     show_error env (final_figure b1 b2 b3 b4) = None) /\
    st = final_state fs t b1 b2 b3 b4.
Proof.
  intros Hrun.
  destruct (fs !! input_path) as [[t|g| | |]|] eqn:Hf.
  2-6: (destruct (main_no_table fs) as (e & Hraise & _);
        [intros t; rewrite Hf; discriminate|congruence]).
  destruct (main_table fs t Hf)
    as [(drawn & e & rest & _ & Hraise)|(b1 & b2 & b3 & b4 & H1 & H2 & H3 & H4 & Hfin)];
    [congruence|].
  exists t, b1, b2, b3, b4. do 5 (split; [done|]).
  rewrite Hfin in Hrun. unfold finish in Hrun.
  destruct (layout_error env _); [done|].
  destruct (save_error env _ _); [done|].
  destruct (show_error env _); [done|].
  by injection Hrun as <-.
Qed.

(** A run that raises before it has called [savefig] has raised in the
    load, in a chart or in the layout: the file system is as it was,
    nothing is on display, and the calls made are the first [k] of the
    script with [k] at most 7. *)
Lemma finish_raise (fs : gmap string File) (t : CsvTable) (b1 b2 b3 b4 : list Bar)
    (e : Exn) (st : State) :
  finish fs t b1 b2 b3 b4 = Raise e st ->
  display st = [] /\
  ((files st = fs /\ trace st = take 7 final_trace) \/
   (files st = fs /\ trace st = take 8 final_trace) \/
   (files st = <[output_path := FPng (final_figure b1 b2 b3 b4)]> fs /\
    trace st = final_trace)).
Proof.
  unfold finish.
  destruct (layout_error env _); [intros [= <- <-]; simpl; tauto|].
  destruct (save_error env _ _); [intros [= <- <-]; simpl; tauto|].
  destruct (show_error env _); [intros [= <- <-]; simpl; tauto|done].
Qed.

Lemma length_drawn (t : CsvTable) (drawn : list (list Bar)) (e : Exn)
    (rest : list (Exn + list Bar)) :
  chart_results t = ((inr <$> drawn) ++ inl e :: rest)%list ->
  length drawn <= 3.
Proof.
  intros Hres. apply (f_equal length) in Hres.
  rewrite length_app, length_fmap in Hres. simpl in Hres. lia.
Qed.

Lemma main_raise_inv (fs : gmap string File) (e : Exn) (st : State) :
  main fs = Raise e st ->
  display st = [] /\
  ((files st = fs /\ exists k, k <= 6 /\ trace st = take k final_trace) \/
   (files st = fs /\ trace st = take 7 final_trace) \/
   (files st = fs /\ trace st = take 8 final_trace) \/
   ((exists f, files st = <[output_path := FPng f]> fs) /\ trace st = final_trace)).
Proof.
  intros Hrun.
  destruct (fs !! input_path) as [[t|g| | |]|] eqn:Hf.
  2-6: (destruct (main_no_table fs) as (e' & Hraise & _);
        [intros t; rewrite Hf; discriminate|];
        rewrite Hraise in Hrun; injection Hrun as <- <-;
        split; [done|]; left; split; [done|]; exists 1; split; [lia|done]).
  destruct (main_table fs t Hf)
    as [(drawn & e' & rest & Hres & Hraise)|(b1 & b2 & b3 & b4 & _ & _ & _ & _ & Hfin)].
  - rewrite Hraise in Hrun. injection Hrun as <- <-.
    split; [done|]. left. split; [done|].
    exists (3 + length drawn). split; [|done].
    apply length_drawn in Hres. lia.
  - rewrite Hfin in Hrun. apply finish_raise in Hrun as [Hd Hcases].
    split; [done|]. right.
    destruct Hcases as [?|[?|[? ?]]]; [tauto|tauto|].
    right; right. split; [by eexists|done].
Qed.

(** The calls before the save. *)
Lemma before_save (k : nat) :
  k <= 7 ->
  (forall p, EvSaveFig p ∉ take k final_trace) /\ (EvShow ∉ take k final_trace).
Proof.
  intros Hk.
  assert (forall ev, ev ∈ take k final_trace -> ev ∈ take 7 final_trace) as Hsub.
  { intros ev Hev. replace k with (k `min` 7) in Hev by lia.
    rewrite <- take_take in Hev. by eapply subseteq_take. }
  split; [intros p Hp|intros Hp]; apply Hsub in Hp; simpl in Hp;
    rewrite !elem_of_cons, elem_of_nil in Hp;
    repeat (destruct Hp as [Hp|Hp]; [discriminate|]); done.
Qed.

(** * The claims *)


(** C2, amended.  On every successful run, in each of the four panels the
    heights of the bars are the values of the metric's Mean column, in row
    order, except that a Mean that is missing is drawn as a bar of height
    0, and the half-widths of the error bars are the values of its StdDev
    column.  For the two example rows the first panel has two bars of
    heights 1.0 and 1.5 with error bars 0.1 and 0.2. *)
Theorem C2_heights_and_error_bars (fs : gmap string File) (t : CsvTable)
    (st : State) :
  fs !! input_path = Some (FCsv t) ->
  main fs = Ok tt st ->
  exists f,
    fig st = Some f /\
    shows_metric f (0, 0) t "Add Mean" "Add StdDev" /\
    shows_metric f (0, 1) t "Modify Mean" "Modify StdDev" /\
    shows_metric f (1, 0) t "Delete Mean" "Delete StdDev" /\
    shows_metric f (1, 1) t "BestPrice Mean" "BestPrice StdDev" /\
    (t = example_table ->
     exists a, panel f (0, 0) = Some a /\
       heights a = [Fin 1.0; Fin 1.5] /\ half_widths a = [Fin 0.1; Fin 0.2]).
Proof.
  intros Hf (t' & b1 & b2 & b3 & b4 & Hf' & H1 & H2 & H3 & H4 & _ & ->)%main_ok_inv.
  assert (t' = t) as -> by congruence.
  apply bars_of_inr in H1 as (_ & _ & _ & (m1 & Hm1 & Hh1) & He1 & _).
  apply bars_of_inr in H2 as (_ & _ & _ & (m2 & Hm2 & Hh2) & He2 & _).
  apply bars_of_inr in H3 as (_ & _ & _ & (m3 & Hm3 & Hh3) & He3 & _).
  apply bars_of_inr in H4 as (_ & _ & _ & (m4 & Hm4 & Hh4) & He4 & _).
  exists (final_figure b1 b2 b3 b4). split; [done|].
  split; [by eexists _, m1, _|]. split; [by eexists _, m2, _|].
  split; [by eexists _, m3, _|]. split; [by eexists _, m4, _|].
  intros ->. eexists. split; [reflexivity|].
  unfold heights, half_widths, chart, ax_bars.
  assert (mapM cell_value (column example_table "Add Mean") = Some [Fin 1.0; Fin 1.5])
    as Hm by (vm_compute; reflexivity).
  assert (mapM cell_value (column example_table "Add StdDev") = Some [Fin 0.1; Fin 0.2])
    as He by (vm_compute; reflexivity).
  rewrite Hm in Hm1. rewrite He in He1. simplify_eq. by rewrite Hh1.
Qed.

(** C3.  After every successful run the titles of the four panels are
    "Add Orders (μs)", "Modify Orders (μs)", "Delete Orders (μs)" and
    "Best Price Lookup (ns)", and each metric is in its fixed panel of the
    2x2 grid: Add at the top left, Modify at the top right, Delete at the
    bottom left and BestPrice at the bottom right. *)
Theorem C3_titles_and_positions (fs : gmap string File) (st : State) :
  main fs = Ok tt st ->
  exists f t,
    fig st = Some f /\ fs !! input_path = Some (FCsv t) /\
    titles f = [["Add Orders (μs)"; "Modify Orders (μs)"];
                ["Delete Orders (μs)"; "Best Price Lookup (ns)"]] /\
    holds_chart f (0, 0) t "Add Orders (μs)" "Add Mean" "Add StdDev" /\
    holds_chart f (0, 1) t "Modify Orders (μs)" "Modify Mean" "Modify StdDev" /\
    holds_chart f (1, 0) t "Delete Orders (μs)" "Delete Mean" "Delete StdDev" /\
    holds_chart f (1, 1) t "Best Price Lookup (ns)" "BestPrice Mean" "BestPrice StdDev".
Proof.
  intros (t & b1 & b2 & b3 & b4 & Hf & H1 & H2 & H3 & H4 & _ & ->)%main_ok_inv.
  exists (final_figure b1 b2 b3 b4), t.
  do 3 (split; [done|]).
  repeat split; eexists; (split; [reflexivity|by repeat split]).
Qed.

(** C6.  Every successful run leaves the PNG file at the fixed path
    'orderbook_benchmark.png', holding the figure with its 2x2 grid of
    titled bar charts; the figure is saved once all four charts are drawn
    and before it is shown, and it is the saved figure that is shown. *)
Theorem C6_png_saved_then_shown (fs : gmap string File) (st : State) :
  main fs = Ok tt st ->
  exists f,
    files st !! "orderbook_benchmark.png" = Some (FPng f) /\
    fig st = Some f /\ display st = [f] /\
    titles f = [["Add Orders (μs)"; "Modify Orders (μs)"];
                ["Delete Orders (μs)"; "Best Price Lookup (ns)"]] /\
    exists drawing,
      trace st = (drawing ++ [EvSaveFig "orderbook_benchmark.png"; EvShow])%list /\
      (EvShow ∉ drawing) /\
      Forall (fun ax => exists y, EvBar y ax ∈ drawing) [(0, 0); (0, 1); (1, 0); (1, 1)].
Proof.
  intros (t & b1 & b2 & b3 & b4 & Hf & H1 & H2 & H3 & H4 & _ & ->)%main_ok_inv.
  exists (final_figure b1 b2 b3 b4). split.
  { simpl. apply lookup_insert_eq. }
  do 3 (split; [done|]).
  exists (take 7 final_trace). split; [done|]. split.
  - simpl. rewrite !not_elem_of_cons. repeat split; try done. apply not_elem_of_nil.
  - repeat constructor; eexists; simpl; rewrite !elem_of_cons; eauto 10.
Qed.

(** C4.  When one of the nine required columns is absent from the header
    of the input CSV, or present under another name only, the script ends
    in an exception before the save step is reached: nothing was saved or
    shown, and the file system is as it was, without a new PNG file. *)
Theorem C4_missing_column_is_fatal (fs : gmap string File) (t : CsvTable)
    (c : string) :
  fs !! input_path = Some (FCsv t) ->
  c ∈ required_columns ->
  has_column t c = false ->
  exists e st,
    main fs = Raise e st /\
    files st = fs /\ display st = [] /\
    (forall p, EvSaveFig p ∉ trace st) /\ (EvShow ∉ trace st).
Proof.
  intros Hf Hc Hmiss.
  destruct (main_table fs t Hf)
    as [(drawn & e & rest & Hres & Hraise)|(b1 & b2 & b3 & b4 & H1 & H2 & H3 & H4 & _)].
  - exists e, (failed_state fs t drawn). do 3 (split; [done|]).
    apply before_save. apply length_drawn in Hres. lia.
  - apply bars_of_inr in H1 as ((? & ? & ?) & _).
    apply bars_of_inr in H2 as ((_ & ? & ?) & _).
    apply bars_of_inr in H3 as ((_ & ? & ?) & _).
    apply bars_of_inr in H4 as ((_ & ? & ?) & _).
    unfold has_column in Hmiss. apply bool_decide_eq_false in Hmiss.
    apply in_required_columns in Hc. exfalso. apply Hmiss.
    repeat (destruct Hc as [->|Hc]; [assumption|]). by subst.
Qed.

(** C5.  When the input CSV file is missing, or is there but cannot be read
    as a table, the script ends in an exception at the loading step: the
    load is the only call made, no figure is opened, and the file system is
    as it was, so that no PNG is written. *)
Theorem C5_missing_input_is_fatal (fs : gmap string File) :
  (forall t, fs !! input_path ≠ Some (FCsv t)) ->
  exists e st,
    main fs = Raise e st /\
    (fs !! input_path = None -> e = FileNotFoundError "orderbook_benchmark.csv") /\
    trace st = [EvReadCsv "orderbook_benchmark.csv"] /\
    files st = fs /\ df st = None /\ fig st = None /\ display st = [].
Proof.
  intros Hno. destruct (main_no_table fs Hno) as (e & Hrun & He).
  by exists e, (add_event (EvReadCsv input_path) (boot fs)).
Qed.

(** ** What the statements keep *)

Lemma exec_stable (inv : State -> Prop) (stmts : list (M unit)) :
  Forall (stable inv) stmts -> stable inv (exec stmts).
Proof.
  induction 1 as [|s stmts Hs _ IH]; intros st Hinv; [done|].
  rewrite exec_cons. specialize (Hs st Hinv).
  destruct (s st) as [[] st'|e st']; simpl in *; [|done].
  by apply IH.
Qed.

Lemma reads_snoc (tr : list Event) (e : Event) :
  is_read e = false -> reads (tr ++ [e]) = reads tr.
Proof.
  intros He. unfold reads.
  rewrite List.filter_app; simpl. rewrite He. by rewrite app_nil_r.
Qed.

Arguments reads : simpl never.

Lemma paths_differ : output_path ≠ input_path.
Proof. discriminate. Qed.

(** The invariant after a call that is not a load was logged, and after
    no call. *)
Lemma loaded_logged (d : DataFrame) (f : File) (st st' : State) (e : Event) :
  loaded d f st -> is_read e = false ->
  df st' = df st -> files st' !! input_path = files st !! input_path ->
  trace st' = (trace st ++ [e])%list ->
  loaded d f st'.
Proof.
  intros (Hdf & Hfile & later & Htr & Hreads) He Hdf' Hfile' Htr'.
  split; [congruence|]. split; [congruence|].
  exists (later ++ [e])%list. split; [by rewrite Htr', Htr|by rewrite reads_snoc].
Qed.

Ltac logged :=
  eapply loaded_logged; [eassumption| |reflexivity|reflexivity|reflexivity];
  reflexivity.

Lemma line5_stable (d : DataFrame) (f : File) : stable (loaded d f) line5.
Proof. intros st Hst. rewrite line5_eq. logged. Qed.

Lemma bar_stmt_stable (d : DataFrame) (f : File) (y yerr : string) (r c : nat)
    (title : string) :
  stable (loaded d f) (bar_stmt y yerr r c title).
Proof.
  intros st Hst.
  unfold bar_stmt, var_df, var_axes, plot_bar, draw, bind, get, log, lift, modify.
  simpl. destruct (df st); simpl; [|done].
  destruct (axes st); simpl; [|done].
  destruct (index2 _ _ _); simpl; [done|].
  destruct (plot_data _ _ _ _); simpl; [logged|].
  destruct (fig st); simpl; [|logged].
  destruct (error_bars _); simpl; logged.
Qed.

Lemma line16_stable (d : DataFrame) (f : File) : stable (loaded d f) line16.
Proof.
  intros st Hst. unfold line16, tight_layout, gcf, bind, log, get, modify; simpl.
  destruct (fig st); simpl; destruct (layout_error env _); simpl; logged.
Qed.

Lemma line17_stable (d : DataFrame) (f : File) : stable (loaded d f) line17.
Proof.
  intros st Hst. unfold line17, savefig, gcf, bind, log, get, modify; simpl.
  destruct (fig st); simpl; destruct (save_error env _ _); simpl;
    (eapply loaded_logged;
     [eassumption| |reflexivity
     |first [reflexivity|apply (lookup_insert_ne _ _ _ _ paths_differ)]|reflexivity];
     reflexivity).
Qed.

Lemma line18_stable (d : DataFrame) (f : File) : stable (loaded d f) line18.
Proof.
  intros st Hst. unfold line18, show, bind, log, get, modify; simpl.
  destruct (fig st); simpl; [destruct (show_error env _); simpl|]; logged.
Qed.

Lemma after_load_stable (d : DataFrame) (f : File) :
  Forall (stable (loaded d f)) after_load.
Proof.
  unfold after_load, script, tail.
  constructor; [apply line5_stable|].
  do 4 (constructor; [apply bar_stmt_stable|]).
  constructor; [apply line16_stable|].
  constructor; [apply line17_stable|].
  constructor; [apply line18_stable|].
  constructor.
Qed.

(** After the load, however far the script gets. *)
Lemma loaded_after_line4 (fs : gmap string File) (t : CsvTable) (k : nat) :
  fs !! input_path = Some (FCsv t) ->
  loaded (frame_of_table t) (FCsv t)
    (state_of (exec (take (S k) script) (boot fs))).
Proof.
  intros Hf. change (take (S k) script) with (line4 :: take k after_load).
  rewrite exec_cons, line4_eq. cbv zeta. change (files (boot fs)) with fs.
  rewrite Hf. simpl parse. cbv iota.
  apply (exec_stable _ (take k after_load)).
  - apply Forall_take, after_load_stable.
  - split; [done|]. split; [done|]. by exists [].
Qed.

(** C8.  The dataset is read exactly once, by the first statement, and is
    never changed afterwards: however far the script gets, and whether it
    ends well or in an exception, the loaded frame is the one that was read
    from the input file, the input file is what it was, and the load is
    the first call made and the only load. *)
Theorem C8_dataset_read_once_and_kept (fs : gmap string File) (t : CsvTable)
    (k : nat) :
  fs !! input_path = Some (FCsv t) ->
  let st := state_of (exec (take (S k) script) (boot fs)) in
  df st = Some (frame_of_table t) /\
  files st !! input_path = Some (FCsv t) /\
  exists later,
    trace st = EvReadCsv "orderbook_benchmark.csv" :: later /\ reads later = 0.
Proof. intros Hf. by apply loaded_after_line4. Qed.

(** ** Runs on similar tables *)

Lemma exec_respects (stmts : list (M unit)) :
  Forall respects stmts -> respects (exec stmts).
Proof.
  induction 1 as [|s stmts Hs _ IH]; intros st1 st2 Halike; [done|].
  rewrite !exec_cons. specialize (Hs st1 st2 Halike).
  destruct (s st1) as [[] st1'|e1 st1'], (s st2) as [[] st2'|e2 st2']; try done.
  by apply IH.
Qed.

(** Alike states, taken apart: the second has the figure, the panels, the
    display and the trace of the first. *)
Ltac same_python :=
  intros [fs1 od1 of1 oa1 w1 tr1] [fs2 od2 of2 oa2 w2 tr2]
         (Hdf & Hfig & Haxes & Hdisplay & Htrace);
  simpl in Hdf, Hfig, Haxes, Hdisplay, Htrace;
  subst of2 oa2 w2 tr2.

Ltac alike_done := simpl; repeat split; simpl; try done; by constructor.

Lemma line5_respects : respects line5.
Proof. same_python. rewrite !line5_eq. alike_done. Qed.

Lemma bar_stmt_respects (m : string * string) (r c : nat) (title : string) :
  m ∈ metrics -> respects (bar_stmt m.1 m.2 r c title).
Proof.
  intros Hm. same_python.
  unfold bar_stmt, var_df, var_axes, plot_bar, draw, bind, get, log, lift, modify.
  simpl. destruct Hdf as [d d' Hsim|]; [|alike_done].
  simpl. destruct oa1; [|alike_done].
  simpl. destruct (index2 _ _ _); [alike_done|].
  simpl. rewrite <- (Hsim m Hm).
  destruct (plot_data _ _ _ _); [alike_done|].
  simpl. destruct of1; [|alike_done].
  simpl. destruct (error_bars _); alike_done.
Qed.

Lemma line16_respects : respects line16.
Proof.
  same_python.
  unfold line16, tight_layout, gcf, bind, log, get, modify; simpl.
  destruct of1; simpl; destruct (layout_error env _); alike_done.
Qed.

Lemma line17_respects : respects line17.
Proof.
  same_python.
  unfold line17, savefig, gcf, bind, log, get, modify; simpl.
  destruct of1; simpl; destruct (save_error env _ _); alike_done.
Qed.

Lemma line18_respects : respects line18.
Proof.
  same_python.
  unfold line18, show, bind, log, get, modify; simpl.
  destruct of1; simpl; [destruct (show_error env _)|]; alike_done.
Qed.

Lemma after_load_respects : Forall respects after_load.
Proof.
  unfold after_load, script, tail.
  constructor; [apply line5_respects|].
  constructor; [apply (bar_stmt_respects ("Add Mean", "Add StdDev")); is_metric|].
  constructor; [apply (bar_stmt_respects ("Modify Mean", "Modify StdDev")); is_metric|].
  constructor; [apply (bar_stmt_respects ("Delete Mean", "Delete StdDev")); is_metric|].
  constructor; [apply (bar_stmt_respects ("BestPrice Mean", "BestPrice StdDev")); is_metric|].
  constructor; [apply line16_respects|].
  constructor; [apply line17_respects|].
  constructor; [apply line18_respects|].
  constructor.
Qed.

Lemma alike_outcome_rendering (o1 o2 : Outcome unit) :
  alike_outcome o1 o2 -> rendering o1 = rendering o2.
Proof.
  destruct o1 as [[] st1|e1 st1], o2 as [[] st2|e2 st2]; simpl; try done.
  - intros (_ & Hfig & _ & Hdisplay & Htrace).
    unfold rendering; simpl. by rewrite Hfig, Hdisplay, Htrace.
  - intros (-> & _ & Hfig & _ & Hdisplay & Htrace).
    unfold rendering; simpl. by rewrite Hfig, Hdisplay, Htrace.
Qed.

(** Runs on similar tables render the same. *)
Lemma main_rendering_similar (fs1 fs2 : gmap string File) (t1 t2 : CsvTable) :
  fs1 !! input_path = Some (FCsv t1) -> fs2 !! input_path = Some (FCsv t2) ->
  similar (frame_of_table t1) (frame_of_table t2) ->
  rendering (main fs1) = rendering (main fs2).
Proof.
  intros Hf1 Hf2 Hsim. apply alike_outcome_rendering.
  rewrite (main_load fs1 t1 Hf1), (main_load fs2 t2 Hf2).
  apply (exec_respects after_load after_load_respects).
  repeat split. simpl. by constructor.
Qed.

(** Runs that find the same input file render the same. *)
Lemma main_rendering (fs1 fs2 : gmap string File) :
  fs1 !! input_path = fs2 !! input_path ->
  rendering (main fs1) = rendering (main fs2).
Proof.
  intros Hf. destruct (fs1 !! input_path) as [[t|g| | |]|] eqn:Hf1.
  { by apply (main_rendering_similar fs1 fs2 t t). }
  all: unfold main, script; rewrite !exec_cons, !line4_eq; cbv zeta;
    change (files (boot fs1)) with fs1; change (files (boot fs2)) with fs2;
    by rewrite Hf1, <- Hf.
Qed.

Lemma main_keeps_input (fs : gmap string File) :
  files (state_of (main fs)) !! input_path = fs !! input_path.
Proof.
  destruct (fs !! input_path) as [[t|g| | |]|] eqn:Hf.
  { pose proof (loaded_after_line4 fs t 8 Hf) as (_ & Hfile & _).
    by change (take 9 script) with script in Hfile. }
  all: unfold main, script; rewrite exec_cons, line4_eq; cbv zeta;
    change (files (boot fs)) with fs; by rewrite Hf.
Qed.

(** C7.  The script is deterministic in the contents of the input CSV: two
    runs that find the same input file, whatever else the file system
    holds, end in the same way with the same figure (bar heights, error
    bars, titles and panels), and both create the output file, with that
    figure, when they succeed.  In particular a second run on the files
    that the first run left renders the same again. *)
Theorem C7_deterministic (fs1 fs2 : gmap string File) :
  fs1 !! input_path = fs2 !! input_path ->
  rendering (main fs1) = rendering (main fs2) /\
  (forall st1, main fs1 = Ok tt st1 ->
     exists st2 f,
       main fs2 = Ok tt st2 /\ fig st1 = Some f /\ fig st2 = Some f /\
       files st1 !! output_path = Some (FPng f) /\
       files st2 !! output_path = Some (FPng f)) /\
  rendering (main (files (state_of (main fs1)))) = rendering (main fs1).
Proof.
  intros Hf. split; [by apply main_rendering|]. split.
  - intros st1 (t & b1 & b2 & b3 & b4 & Hf1 & H1 & H2 & H3 & H4 & (Hl & Hs & Hw) & ->)%main_ok_inv.
    exists (final_state fs2 t b1 b2 b3 b4), (final_figure b1 b2 b3 b4).
    split; [apply main_ok; congruence|].
    repeat split; simpl; apply lookup_insert_eq.
  - apply main_rendering, main_keeps_input.
Qed.

(** ** Columns that the script does not name *)

Lemma bar_data_ext (d d' : DataFrame) (x y yerr : string) (cap : Z) :
  plot_data d x y yerr = plot_data d' x y yerr ->
  bar_data d x y yerr cap = bar_data d' x y yerr cap.
Proof. intros Hp. unfold bar_data. by rewrite Hp. Qed.

Lemma column_restrict (t : CsvTable) (c : string) :
  c ∈ required_columns -> column (restrict t) c = column t c.
Proof.
  intros Hc. unfold column, restrict; simpl.
  rewrite <- list_fmap_compose. apply list_fmap_ext. intros i r _; simpl.
  rewrite map_lookup_filter. destruct (r !! c) as [v|]; simpl; [|done].
  by rewrite option_guard_True.
Qed.

(** Two tables with the same nine columns give the same charts. *)
Lemma similar_columns (t t' : CsvTable) :
  (forall c, c ∈ required_columns -> c ∈ header t <-> c ∈ header t') ->
  (forall c, c ∈ required_columns -> column t c = column t' c) ->
  similar (frame_of_table t) (frame_of_table t').
Proof.
  intros Hcols Hvals m Hm.
  assert (forall c, c ∈ ["Implementation"; m.1; m.2] -> c ∈ required_columns) as Hreq.
  { intros c. unfold metrics in Hm.
    rewrite !elem_of_cons, elem_of_nil in Hm. rewrite !elem_of_cons, elem_of_nil.
    destruct Hm as [->|[->|[->|[->|[]]]]]; simpl; intros [->|[->|[->|[]]]]; is_required. }
  apply plot_data_ext.
  - intros c Hc%Hreq. by apply Hcols.
  - intros c Hc%Hreq. rewrite !field_frame_of_table. by apply Hvals.
Qed.

Lemma similar_restrict (t : CsvTable) :
  similar (frame_of_table t) (frame_of_table (restrict t)).
Proof.
  apply similar_columns.
  - intros c Hc. simpl. rewrite list_elem_of_filter. tauto.
  - intros c Hc. symmetry. by apply column_restrict.
Qed.

Lemma bars_of_similar (t t' : CsvTable) (m : string * string) :
  similar (frame_of_table t) (frame_of_table t') -> m ∈ metrics ->
  bars_of t m.1 m.2 = bars_of t' m.1 m.2.
Proof. intros Hsim Hm. unfold bars_of. apply bar_data_ext. by apply Hsim. Qed.

(** Runs on similar tables succeed together, with the same figure. *)
Lemma main_ok_similar (fs fs' : gmap string File) (t t' : CsvTable) (st : State) :
  fs !! input_path = Some (FCsv t) -> fs' !! input_path = Some (FCsv t') ->
  similar (frame_of_table t) (frame_of_table t') ->
  main fs = Ok tt st ->
  exists st' f,
    main fs' = Ok tt st' /\ fig st = Some f /\ fig st' = Some f /\
    display st = display st' /\
    files st !! output_path = Some (FPng f) /\
    files st' !! output_path = Some (FPng f).
Proof.
  intros Hf Hf' Hsim
    (t0 & b1 & b2 & b3 & b4 & Hf0 & H1 & H2 & H3 & H4 & (Hl & Hs & Hw) & ->)%main_ok_inv.
  assert (t0 = t) as -> by congruence.
  exists (final_state fs' t' b1 b2 b3 b4), (final_figure b1 b2 b3 b4).
  split.
  - apply main_ok; try done.
    + rewrite <- H1. symmetry. apply (bars_of_similar t t' ("Add Mean", "Add StdDev")); [done|is_metric].
    + rewrite <- H2. symmetry. apply (bars_of_similar t t' ("Modify Mean", "Modify StdDev")); [done|is_metric].
    + rewrite <- H3. symmetry. apply (bars_of_similar t t' ("Delete Mean", "Delete StdDev")); [done|is_metric].
    + rewrite <- H4. symmetry.
      apply (bars_of_similar t t' ("BestPrice Mean", "BestPrice StdDev")); [done|is_metric].
  - do 3 (split; [reflexivity|]). simpl. by rewrite !lookup_insert_eq.
Qed.

(** C9, amended.  Columns beyond the nine required ones are ignored: on an
    input CSV whose header has the nine required columns and any further
    ones, the script ends as it would on the same rows with the further
    columns left out, with the same exception or with the same figure; it
    succeeds on the one exactly when it succeeds on the other, and then
    renders and saves exactly the same figure, with the same bars, error
    bars and titles.  It need not succeed: the further columns do not
    make up for what the nine required ones lack. *)
Theorem C9_extra_columns_ignored (fs : gmap string File) (t : CsvTable) :
  fs !! input_path = Some (FCsv t) ->
  rendering (main fs) = rendering (main (<[input_path := FCsv (restrict t)]> fs)) /\
  (forall st, main fs = Ok tt st ->
     exists st' f,
       main (<[input_path := FCsv (restrict t)]> fs) = Ok tt st' /\
       fig st = Some f /\ fig st' = Some f /\
       display st = display st' /\
       files st !! output_path = Some (FPng f) /\
       files st' !! output_path = Some (FPng f)) /\
  (forall st', main (<[input_path := FCsv (restrict t)]> fs) = Ok tt st' ->
     exists st, main fs = Ok tt st).
Proof.
  intros Hf.
  assert (rendering (main fs) = rendering (main (<[input_path := FCsv (restrict t)]> fs)))
    as Hsame.
  { eapply main_rendering_similar;
      [exact Hf|exact (lookup_insert_eq _ _ _)|apply similar_restrict]. }
  split; [exact Hsame|]. split.
  - intros st Hrun.
    eapply main_ok_similar;
      [exact Hf|exact (lookup_insert_eq _ _ _)|apply similar_restrict|exact Hrun].
  - intros st' Hrun'. rewrite Hrun' in Hsame.
    destruct (main fs) as [[] st|e st]; [by exists st|].
    unfold rendering in Hsame; simpl in Hsame. congruence.
Qed.

(** ** The values of the Implementation column *)





(** * Further properties of the script *)

(** ** A chart that raises *)

(** The rectangles of a chart are those of all its rows or none. *)
Lemma rectangles_of_length (t : CsvTable) (y yerr : string) :
  rectangles_of t y yerr = [] \/
  length (rectangles_of t y yerr) = length (lines t).
Proof.
  unfold rectangles_of.
  destruct (plot_data _ _ _ _) as [|p] eqn:Hp; [by left|right].
  apply plot_data_inr in Hp as (_ & _ & (vs & Hvs & ->) & _).
  apply length_mapM in Hvs.
  rewrite length_fmap, <- Hvs, field_frame_of_table. apply length_column.
Qed.

(** A chart whose error bars are refused has added its rectangles. *)
Lemma rectangles_of_value_error (t : CsvTable) (m : string * string) :
  m ∈ metrics -> bars_of t m.1 m.2 = inl ValueError ->
  length (rectangles_of t m.1 m.2) = length (lines t).
Proof.
  intros Hm Hbars. unfold rectangles_of.
  apply bar_data_inl in Hbars as [Hp|(p & Hp & _)].
  - apply plot_data_inl in Hp.
    destruct Hp as [[? _]|[[? _]|[[? _]|[?|?]]]]; discriminate.
  - rewrite Hp.
    apply plot_data_inr in Hp as (_ & _ & (vs & Hvs & ->) & _).
    apply length_mapM in Hvs.
    rewrite length_fmap, <- Hvs, field_frame_of_table. apply length_column.
Qed.

(** X1.  A [KeyError] of the script names a column that is missing: when
    a run on a table ends in [KeyError: c] before the layout is reached,
    that is in one of its four charts, [c] is one of the nine columns that
    the script names and is absent from the header of the table. *)
Theorem X1_key_error_names_an_absent_column (fs : gmap string File)
    (t : CsvTable) (c : string) (st : State) :
  fs !! input_path = Some (FCsv t) ->
  main fs = Raise (KeyError c) st ->
  (EvTightLayout ∉ trace st) ->
  c ∈ required_columns /\ c ∉ header t.
Proof.
  intros Hf Hrun Hlayout.
  destruct (main_table fs t Hf)
    as [(drawn & e & rest & Hres & Hraise)|(b1 & b2 & b3 & b4 & _ & _ & _ & _ & Hfin)].
  - rewrite Hraise in Hrun. injection Hrun as -> _.
    assert (inl (KeyError c) ∈ chart_results t) as Hin
      by (rewrite Hres; apply elem_of_app; right; apply list_elem_of_here).
    apply list_elem_of_fmap in Hin as (m & Hm & Hin).
    by apply (bars_of_inl t m).
  - rewrite Hfin in Hrun. apply finish_raise in Hrun as [_ Hcases].
    exfalso. apply Hlayout.
    destruct Hcases as [[_ ->]|[[_ ->]|[_ ->]]];
      unfold final_trace; simpl; rewrite !elem_of_cons; tauto.
Qed.

(** X2.  The charts are drawn in the order of the script, and the first
    one that raises ends the run with its exception: the calls made are
    the load, [subplots] and the charts up to that one, the charts before
    it are complete in their panels, and nothing was written or shown.
    The panel of the chart that raised has no complete bar; it has the
    rectangles of all the rows when the chart raised after adding them, as
    it does for a negative error value ([ValueError]), and none otherwise.
    The panels after it are empty. *)
Theorem X2_first_failing_chart (fs : gmap string File) (t : CsvTable)
    (drawn : list (list Bar)) (e : Exn) (rest : list (Exn + list Bar)) :
  fs !! input_path = Some (FCsv t) ->
  chart_results t = ((inr <$> drawn) ++ inl e :: rest)%list ->
  exists st f rects,
    main fs = Raise e st /\
    trace st = take (3 + length drawn) final_trace /\
    fig st = Some f /\
    ax_bars <$> concat (grid f) = (drawn ++ replicate (4 - length drawn) [])%list /\
    ax_patches <$> concat (grid f)
      = (((fun bars : list Bar => bar_height <$> bars) <$> drawn)
         ++ rects :: replicate (3 - length drawn) [])%list /\
    (rects = [] \/ length rects = length (lines t)) /\
    (e = ValueError -> length rects = length (lines t)) /\
    files st = fs /\ display st = [].
Proof.
  intros Hf Hres.
  pose proof (main_first_failure fs t drawn e rest Hf Hres) as Hrun.
  pose proof (length_drawn t drawn e rest Hres) as Hlen.
  unfold chart_results, metrics in Hres. cbn [fmap list_fmap fst snd] in Hres.
  destruct drawn as [|b1 [|b2 [|b3 [|b4 drawn]]]]; simpl in Hlen; try lia;
    simpl in Hres; simplify_eq.
  - exists (failed_state fs t []), (figure_after t []),
      (rectangles_of t "Add Mean" "Add StdDev").
    do 5 (split; [done|]). split; [apply rectangles_of_length|].
    split; [|done]. intros ->.
    apply (rectangles_of_value_error t ("Add Mean", "Add StdDev")); [is_metric|done].
  - exists (failed_state fs t [b1]), (figure_after t [b1]),
      (rectangles_of t "Modify Mean" "Modify StdDev").
    do 5 (split; [done|]). split; [apply rectangles_of_length|].
    split; [|done]. intros ->.
    apply (rectangles_of_value_error t ("Modify Mean", "Modify StdDev")); [is_metric|done].
  - exists (failed_state fs t [b1; b2]), (figure_after t [b1; b2]),
      (rectangles_of t "Delete Mean" "Delete StdDev").
    do 5 (split; [done|]). split; [apply rectangles_of_length|].
    split; [|done]. intros ->.
    apply (rectangles_of_value_error t ("Delete Mean", "Delete StdDev")); [is_metric|done].
  - exists (failed_state fs t [b1; b2; b3]), (figure_after t [b1; b2; b3]),
      (rectangles_of t "BestPrice Mean" "BestPrice StdDev").
    do 5 (split; [done|]). split; [apply rectangles_of_length|].
    split; [|done]. intros ->.
    apply (rectangles_of_value_error t ("BestPrice Mean", "BestPrice StdDev"));
      [is_metric|done].
Qed.

(** X3.  A run that ends in an exception without having called [savefig],
    that is in the load, in a chart or in the layout, has written nothing
    and shown nothing: the file system is exactly as it was, so that an
    image left by an earlier run is still the old one, and no window is on
    display. *)
Theorem X3_failure_before_the_save_writes_nothing (fs : gmap string File)
    (e : Exn) (st : State) :
  main fs = Raise e st ->
  (forall p, EvSaveFig p ∉ trace st) ->
  files st = fs /\
  files st !! "orderbook_benchmark.png" = fs !! "orderbook_benchmark.png" /\
  display st = [] /\ (EvShow ∉ trace st) /\
  exists k, k <= 7 /\ trace st = take k final_trace.
Proof.
  intros (Hdisplay & Hcases)%main_raise_inv Hsave.
  assert (files st = fs /\ exists k, k <= 7 /\ trace st = take k final_trace)
    as (Hfiles & k & Hk & Htrace).
  { destruct Hcases as [[? (k & ? & ?)]|[[? ?]|[[_ Htr]|[_ Htr]]]].
    - split; [done|]. exists k. split; [lia|done].
    - split; [done|]. by exists 7.
    - destruct (Hsave output_path). rewrite Htr.
      unfold final_trace. simpl. rewrite !elem_of_cons. tauto.
    - destruct (Hsave output_path). rewrite Htr.
      unfold final_trace. simpl. rewrite !elem_of_cons. tauto. }
  split; [done|]. split; [by rewrite Hfiles|]. split; [done|]. split.
  - rewrite Htrace. by apply before_save.
  - by exists k.
Qed.

(** ** The files of a successful run *)

(** X4.  A successful run changes one file only: the figure replaces
    whatever was at 'orderbook_benchmark.png', and every other file, the
    input among them, is as it was. *)
Theorem X4_only_the_image_is_written (fs : gmap string File) (st : State) :
  main fs = Ok tt st ->
  exists f,
    fig st = Some f /\
    files st = <["orderbook_benchmark.png" := FPng f]> fs /\
    (forall p, p ≠ "orderbook_benchmark.png" -> files st !! p = fs !! p).
Proof.
  intros (t & b1 & b2 & b3 & b4 & Hf & _ & _ & _ & _ & _ & ->)%main_ok_inv.
  exists (final_figure b1 b2 b3 b4). do 2 (split; [done|]).
  intros p Hp. simpl. by rewrite lookup_insert_ne.
Qed.

(** X5.  Running the script again on the files that a successful run has
    left succeeds again, with the same figure, and leaves the same files:
    the image it wrote is not an input of the script. *)
Theorem X5_second_run_leaves_the_files (fs : gmap string File) (st : State) :
  main fs = Ok tt st ->
  exists st',
    main (files st) = Ok tt st' /\ files st' = files st /\ fig st' = fig st.
Proof.
  intros (t & b1 & b2 & b3 & b4 & Hf & H1 & H2 & H3 & H4 & (Hl & Hs & Hw) & ->)%main_ok_inv.
  exists (final_state (files (final_state fs t b1 b2 b3 b4)) t b1 b2 b3 b4).
  split; [|split; [|done]].
  - apply main_ok; try done. simpl.
    by rewrite (lookup_insert_ne _ _ _ _ paths_differ).
  - simpl. apply insert_insert_eq.
Qed.

(** ** The look of the figure *)

(** X6.  The figure that a successful run saves is 12 by 10 inches with
    the tight layout applied; every panel has the x-axis label
    'Implementation' and one legend entry, the name of its Mean column;
    every bar has an error bar with cap size 4 and a half-width that is
    not negative. *)
Theorem X6_look_of_the_figure (fs : gmap string File) (st : State) :
  main fs = Ok tt st ->
  exists f,
    files st !! "orderbook_benchmark.png" = Some (FPng f) /\
    figsize f = (12, 10)%Q /\ tight f = true /\
    ax_legend <$> concat (grid f)
      = [["Add Mean"]; ["Modify Mean"]; ["Delete Mean"]; ["BestPrice Mean"]] /\
    Forall (fun a =>
              ax_xlabel a = "Implementation" /\
              Forall (fun b => bar_capsize b = 4%Z /\ negative (bar_yerr b) = false)
                     (ax_bars a))
           (concat (grid f)).
Proof.
  intros (t & b1 & b2 & b3 & b4 & Hf & H1 & H2 & H3 & H4 & _ & ->)%main_ok_inv.
  exists (final_figure b1 b2 b3 b4).
  split; [simpl; apply lookup_insert_eq|]. do 3 (split; [done|]).
  apply bars_of_inr in H1 as (_ & _ & _ & _ & _ & Hb1 & _).
  apply bars_of_inr in H2 as (_ & _ & _ & _ & _ & Hb2 & _).
  apply bars_of_inr in H3 as (_ & _ & _ & _ & _ & Hb3 & _).
  apply bars_of_inr in H4 as (_ & _ & _ & _ & _ & Hb4 & _).
  assert (forall bs : list Bar,
            Forall (fun b => negative (bar_yerr b) = false /\ bar_capsize b = 4%Z) bs ->
            Forall (fun b => bar_capsize b = 4%Z /\ negative (bar_yerr b) = false) bs)
    as Hswap by (intros bs Hbs; eapply Forall_impl; [exact Hbs|]; by intros b [? ?]).
  unfold final_figure, drawn_figure, grid, concat, app.
  repeat constructor; simpl; auto.
Qed.

(** ** The order of the columns *)

(** X7.  The script finds its columns by name, not by position: two input
    files with the same columns in another order, each column with the
    same label and the same values in both, give the same run, with the
    same exception or the same figure. *)
Theorem X7_column_order_is_irrelevant (fs fs' : gmap string File)
    (t t' : CsvTable) :
  fs !! input_path = Some (FCsv t) ->
  fs' !! input_path = Some (FCsv t') ->
  header t ≡ₚ header t' ->
  lines t = lines t' ->
  rendering (main fs) = rendering (main fs').
Proof.
  intros Hf Hf' Hperm Hlines.
  apply (main_rendering_similar fs fs' t t' Hf Hf').
  apply similar_columns.
  - intros c _. by rewrite Hperm.
  - intros c _. unfold column. by rewrite Hlines.
Qed.

(** ** A header without the Implementation column *)

(** X8.  Every chart takes its labels from the Implementation column, and
    the first chart looks for it before anything else: without that column
    in the header the script ends in [KeyError: 'Implementation'] in its
    first chart, whatever the other columns hold, with all panels empty
    and nothing written. *)
Theorem X8_no_implementation_column (fs : gmap string File) (t : CsvTable) :
  fs !! input_path = Some (FCsv t) ->
  "Implementation" ∉ header t ->
  exists st f,
    main fs = Raise (KeyError "Implementation") st /\
    trace st = [EvReadCsv "orderbook_benchmark.csv"; EvSubplots 2 2;
                EvBar "Add Mean" (0, 0)] /\
    fig st = Some f /\
    Forall (fun a => ax_bars a = []) (concat (grid f)) /\
    files st = fs.
Proof.
  intros Hf Hx.
  assert (bars_of t "Add Mean" "Add StdDev" = inl (KeyError "Implementation")) as H1.
  { unfold bars_of, bar_data, plot_data, set_index, getitem; simpl.
    by rewrite decide_False. }
  assert (chart_results t
          = ((inr <$> []) ++ inl (KeyError "Implementation") :: tail (chart_results t))%list)
    as Hres
    by (unfold chart_results, metrics; cbn [fmap list_fmap fst snd tail]; by rewrite H1).
  exists (failed_state fs t []), (figure_after t []).
  split; [by eapply main_first_failure|].
  do 2 (split; [done|]). split; [|done].
  simpl. by repeat constructor.
Qed.

End Script.

(** * Runs on the test data *)

(** On the machine on which the layout, the save and the show succeed. *)

Example example_runs : ending ideal example_table = (None, final_trace).
Proof. vm_compute. reflexivity. Qed.

Example missing_column_raises :
  ending ideal missing_table = (Some (KeyError "Delete StdDev"), take 5 final_trace).
Proof. vm_compute. reflexivity. Qed.

Example header_only_raises :
  ending ideal header_only_table = (Some TypeError, take 3 final_trace).
Proof. vm_compute. reflexivity. Qed.

Example text_raises :
  ending ideal text_table = (Some TypeError, take 4 final_trace).
Proof. vm_compute. reflexivity. Qed.

Example negative_raises :
  ending ideal negative_table = (Some ValueError, take 6 final_trace).
Proof. vm_compute. reflexivity. Qed.

(** An integer beyond uint64 is kept as text, and its column is not
    plotted. *)
Example huge_integer_raises :
  ending ideal huge_table = (Some TypeError, take 6 final_trace).
Proof. vm_compute. reflexivity. Qed.

(** A further column changes nothing for a header without a data line
    either: the first chart raises, as on the nine columns alone. *)
Example noted_header_only_raises :
  ending ideal noted_header_only_table = ending ideal header_only_table /\
  ending ideal noted_header_only_table = (Some TypeError, take 3 final_trace).
Proof. split; vm_compute; reflexivity. Qed.

(** On a machine that cannot write the image the run ends in the save,
    with the figure drawn and no file written. *)
Example unwritable_raises :
  let env := {| layout_error := fun _ => None;
                save_error := fun _ p => Some (IsADirectoryError p);
                show_error := fun _ => None |} in
  ending env example_table
    = (Some (IsADirectoryError output_path), take 8 final_trace) /\
  files (state_of (main env example_fs)) = example_fs.
Proof. split; vm_compute; reflexivity. Qed.

(** ** The claims on the test data *)



(** C2, as it is stated, does not hold of a dataset with a Mean that is
    missing: on the two example rows with the field "Add Mean" of the
    second row left empty the script runs to its end, and the second bar
    of the first panel has height 0, which is not the value of the
    column. *)
Lemma C2_counterexample :
  column gap_table "Add Mean" = [num 1.0; CNum NaN] /\
  exists st f a,
    main ideal {[ input_path := FCsv gap_table ]} = Ok tt st /\
    fig st = Some f /\ panel f (0, 0) = Some a /\
    heights a = [Fin 1.0; Fin 0] /\
    CNum <$> heights a ≠ column gap_table "Add Mean".
Proof.
  split; [reflexivity|].
  eexists _, _, _. split; [vm_compute; reflexivity|].
  split; [reflexivity|]. split; [reflexivity|]. split; [reflexivity|].
  intros Heq. vm_compute in Heq. congruence.
Qed.

Lemma C2_witness :
  exists st f a,
    main ideal example_fs = Ok tt st /\ fig st = Some f /\
    shows_metric f (0, 0) example_table "Add Mean" "Add StdDev" /\
    panel f (0, 0) = Some a /\
    heights a = [Fin 1.0; Fin 1.5] /\ half_widths a = [Fin 0.1; Fin 0.2].
Proof.
  assert (exists st, main ideal example_fs = Ok tt st) as [st Hrun]
    by (eexists; vm_compute; reflexivity).
  destruct (C2_heights_and_error_bars ideal example_fs example_table st)
    as (f & Hfig & H00 & _ & _ & _ & Hexample); [reflexivity|exact Hrun|].
  destruct (Hexample eq_refl) as (a & Hpanel & Hheights & Hwidths).
  exists st, f, a. repeat split; assumption.
Defined.

Lemma C3_witness :
  exists st f,
    main ideal example_fs = Ok tt st /\ fig st = Some f /\
    titles f = [["Add Orders (μs)"; "Modify Orders (μs)"];
                ["Delete Orders (μs)"; "Best Price Lookup (ns)"]].
Proof.
  assert (exists st, main ideal example_fs = Ok tt st) as [st Hrun]
    by (eexists; vm_compute; reflexivity).
  destruct (C3_titles_and_positions ideal example_fs st Hrun)
    as (f & t & Hfig & _ & Ht & _).
  exists st, f. split; [exact Hrun|]. split; [exact Hfig|exact Ht].
Defined.

Lemma C4_witness :
  "Delete StdDev" ∈ required_columns /\
  has_column missing_table "Delete StdDev" = false /\
  exists e st,
    main ideal {[ input_path := FCsv missing_table ]} = Raise e st /\
    files st = {[ input_path := FCsv missing_table ]}.
Proof.
  assert ("Delete StdDev" ∈ required_columns) as Hc by is_required.
  split; [exact Hc|]. split; [reflexivity|].
  destruct (C4_missing_column_is_fatal ideal {[ input_path := FCsv missing_table ]}
              missing_table "Delete StdDev") as (e & st & Hrun & Hfiles & _);
    [reflexivity|exact Hc|reflexivity|].
  exists e, st. split; assumption.
Defined.

Lemma C5_witness :
  (forall t, (∅ : gmap string File) !! input_path ≠ Some (FCsv t)) /\
  exists e st, main ideal ∅ = Raise e st /\ files st = ∅.
Proof.
  assert (forall t, (∅ : gmap string File) !! input_path ≠ Some (FCsv t)) as Hno
    by (intros t; rewrite lookup_empty; discriminate).
  split; [exact Hno|].
  destruct (C5_missing_input_is_fatal ideal ∅ Hno) as (e & st & Hrun & _ & _ & Hfiles & _).
  exists e, st. split; assumption.
Defined.

Lemma C6_witness :
  exists st f,
    main ideal example_fs = Ok tt st /\
    files st !! "orderbook_benchmark.png" = Some (FPng f) /\ display st = [f].
Proof.
  assert (exists st, main ideal example_fs = Ok tt st) as [st Hrun]
    by (eexists; vm_compute; reflexivity).
  destruct (C6_png_saved_then_shown ideal example_fs st Hrun)
    as (f & Hpng & _ & Hshow & _).
  exists st, f. split; [exact Hrun|]. split; [exact Hpng|exact Hshow].
Defined.

Lemma C7_witness :
  example_fs !! input_path = (<["notes.txt" := FOther]> example_fs) !! input_path /\
  rendering (main ideal example_fs)
    = rendering (main ideal (<["notes.txt" := FOther]> example_fs)).
Proof.
  split; [reflexivity|].
  destruct (C7_deterministic ideal example_fs (<["notes.txt" := FOther]> example_fs))
    as (Hsame & _); [reflexivity|].
  exact Hsame.
Defined.

Lemma C8_witness :
  example_fs !! input_path = Some (FCsv example_table) /\
  df (state_of (main ideal example_fs)) = Some (frame_of_table example_table) /\
  exists later,
    trace (state_of (main ideal example_fs))
      = EvReadCsv "orderbook_benchmark.csv" :: later /\
    reads later = 0.
Proof.
  split; [reflexivity|].
  destruct (C8_dataset_read_once_and_kept ideal example_fs example_table 8)
    as (Hdf & _ & Hread); [reflexivity|].
  split; [exact Hdf|exact Hread].
Defined.

(** C9, as it is stated, does not hold of a CSV file whose header has the
    nine required columns and a column of notes, and no data line: the
    script does not succeed on it, on whatever machine. *)
Lemma C9_counterexample :
  (forall c, c ∈ required_columns -> c ∈ header noted_header_only_table) /\
  ("Notes" ∈ header noted_header_only_table) /\ ("Notes" ∉ required_columns) /\
  (forall env,
     exists st,
       main env {[ input_path := FCsv noted_header_only_table ]} = Raise TypeError st /\
       files st !! output_path = None).
Proof.
  split.
  { intros c Hc. change (c ∈ (required_columns ++ ["Notes"])%list).
    apply elem_of_app. by left. }
  split; [is_required|].
  split.
  { intros Hin%in_required_columns.
    repeat (destruct Hin as [Hin|Hin]; [discriminate|]). discriminate. }
  intros env. eexists. split; [vm_compute; reflexivity|reflexivity].
Qed.

Lemma C9_witness :
  header (restrict noted_table) = required_columns /\
  exists st st' f,
    main ideal {[ input_path := FCsv noted_table ]} = Ok tt st /\
    main ideal (<[input_path := FCsv (restrict noted_table)]>
                  {[ input_path := FCsv noted_table ]}) = Ok tt st' /\
    fig st = Some f /\ fig st' = Some f.
Proof.
  split; [reflexivity|].
  assert (exists st, main ideal {[ input_path := FCsv noted_table ]} = Ok tt st)
    as [st Hrun] by (eexists; vm_compute; reflexivity).
  destruct (C9_extra_columns_ignored ideal {[ input_path := FCsv noted_table ]} noted_table)
    as (_ & Hruns & _); [reflexivity|].
  destruct (Hruns st Hrun) as (st' & f & Hrun' & Hfig & Hfig' & _).
  exists st, st', f. repeat split; assumption.
Defined.



(** ** The further properties on the test data *)

Lemma X1_witness :
  exists st,
    main ideal {[ input_path := FCsv missing_table ]}
      = Raise (KeyError "Delete StdDev") st /\
    "Delete StdDev" ∈ required_columns /\ "Delete StdDev" ∉ header missing_table.
Proof.
  assert (exists st, main ideal {[ input_path := FCsv missing_table ]}
                     = Raise (KeyError "Delete StdDev") st /\
                     trace st = take 5 final_trace) as (st & Hrun & Htrace)
    by (eexists; split; [vm_compute; reflexivity|reflexivity]).
  destruct (X1_key_error_names_an_absent_column ideal
              {[ input_path := FCsv missing_table ]} missing_table "Delete StdDev" st)
    as [Hreq Habs]; [reflexivity|exact Hrun| |].
  { rewrite Htrace. simpl. rewrite !elem_of_cons, elem_of_nil.
    intros Hin. repeat (destruct Hin as [Hin|Hin]; [discriminate|]). exact Hin. }
  exists st. split; [exact Hrun|]. split; [exact Hreq|exact Habs].
Defined.

Lemma X2_witness :
  exists st f,
    main ideal {[ input_path := FCsv negative_table ]} = Raise ValueError st /\
    trace st = take 6 final_trace /\ fig st = Some f /\
    length <$> (ax_patches <$> concat (grid f)) = [2; 2; 2; 2] /\
    length <$> (ax_bars <$> concat (grid f)) = [2; 2; 2; 0].
Proof.
  assert (exists b1 b2 b3 rest,
            chart_results negative_table
            = ((inr <$> [b1; b2; b3]) ++ inl ValueError :: rest)%list /\
            length b1 = 2 /\ length b2 = 2 /\ length b3 = 2)
    as (b1 & b2 & b3 & rest & Hres & Hb1 & Hb2 & Hb3)
    by (set (r := chart_results negative_table); vm_compute in r; subst r;
        do 4 eexists; split; [reflexivity|]; split; [reflexivity|];
        split; reflexivity).
  destruct (X2_first_failing_chart ideal {[ input_path := FCsv negative_table ]}
              negative_table [b1; b2; b3] ValueError rest)
    as (st & f & rects & Hrun & Htrace & Hfig & Hbars & Hpatches & _ & Hrects & _);
    [reflexivity|exact Hres|].
  exists st, f. split; [exact Hrun|]. split; [exact Htrace|]. split; [exact Hfig|].
  rewrite Hpatches, Hbars. simpl. rewrite !length_fmap, Hb1, Hb2, Hb3.
  rewrite (Hrects eq_refl). split; reflexivity.
Defined.

Lemma X3_witness :
  exists st,
    main ideal {[ input_path := FCsv negative_table; output_path := FOther ]}
      = Raise ValueError st /\
    files st !! "orderbook_benchmark.png" = Some FOther.
Proof.
  assert (exists st,
            main ideal {[ input_path := FCsv negative_table; output_path := FOther ]}
              = Raise ValueError st /\ trace st = take 6 final_trace)
    as (st & Hrun & Htrace)
    by (eexists; split; [vm_compute; reflexivity|reflexivity]).
  destruct (X3_failure_before_the_save_writes_nothing ideal _ _ _ Hrun) as (_ & Hpng & _).
  { intros p. rewrite Htrace. simpl. rewrite !elem_of_cons, elem_of_nil.
    intros Hin. repeat (destruct Hin as [Hin|Hin]; [discriminate|]). exact Hin. }
  exists st. split; [exact Hrun|]. rewrite Hpng. reflexivity.
Defined.

Lemma X4_witness :
  exists st,
    main ideal (<["notes.txt" := FOther]> (<[output_path := FOther]> example_fs))
      = Ok tt st /\
    files st !! "notes.txt" = Some FOther /\
    files st !! input_path = Some (FCsv example_table).
Proof.
  assert (exists st,
            main ideal (<["notes.txt" := FOther]> (<[output_path := FOther]> example_fs))
              = Ok tt st) as [st Hrun]
    by (eexists; vm_compute; reflexivity).
  destruct (X4_only_the_image_is_written ideal _ _ Hrun) as (f & _ & _ & Hkept).
  exists st. split; [exact Hrun|]. split.
  - rewrite Hkept by discriminate. reflexivity.
  - rewrite Hkept by discriminate. reflexivity.
Defined.

Lemma X5_witness :
  exists st st',
    main ideal example_fs = Ok tt st /\
    main ideal (files st) = Ok tt st' /\ files st' = files st.
Proof.
  assert (exists st, main ideal example_fs = Ok tt st) as [st Hrun]
    by (eexists; vm_compute; reflexivity).
  destruct (X5_second_run_leaves_the_files ideal _ _ Hrun) as (st' & Hrun' & Hfiles & _).
  exists st, st'. split; [exact Hrun|]. split; [exact Hrun'|exact Hfiles].
Defined.

Lemma X6_witness :
  exists st f,
    main ideal example_fs = Ok tt st /\
    files st !! "orderbook_benchmark.png" = Some (FPng f) /\
    figsize f = (12, 10)%Q /\ tight f = true.
Proof.
  assert (exists st, main ideal example_fs = Ok tt st) as [st Hrun]
    by (eexists; vm_compute; reflexivity).
  destruct (X6_look_of_the_figure ideal _ _ Hrun) as (f & Hpng & Hsize & Htight & _).
  exists st, f. split; [exact Hrun|]. split; [exact Hpng|].
  split; [exact Hsize|exact Htight].
Defined.

Lemma X7_witness :
  header example_table ≡ₚ header reversed_table /\
  rendering (main ideal example_fs)
    = rendering (main ideal {[ input_path := FCsv reversed_table ]}).
Proof.
  assert (header example_table ≡ₚ header reversed_table) as Hperm
    by (symmetry; apply reverse_Permutation).
  split; [exact Hperm|].
  apply (X7_column_order_is_irrelevant ideal example_fs
           {[ input_path := FCsv reversed_table ]} example_table reversed_table);
    [reflexivity|reflexivity|exact Hperm|reflexivity].
Defined.

Lemma X8_witness :
  ("Implementation" ∉ header {| header := ["Add Mean"]; lines := [] |}) /\
  exists st,
    main ideal {[ input_path := FCsv {| header := ["Add Mean"]; lines := [] |} ]}
      = Raise (KeyError "Implementation") st.
Proof.
  assert ("Implementation" ∉ header {| header := ["Add Mean"]; lines := [] |}) as Hx
    by (simpl; rewrite elem_of_cons, elem_of_nil; intros [Hc|[]]; discriminate).
  split; [exact Hx|].
  destruct (X8_no_implementation_column ideal
              {[ input_path := FCsv {| header := ["Add Mean"]; lines := [] |} ]}
              {| header := ["Add Mean"]; lines := [] |})
    as (st & f & Hrun & _); [reflexivity|exact Hx|].
  exists st. exact Hrun.
Defined.
